(** * LightlyTrain example notebooks and the documentation workflow

    A shallow embedding of the three example notebooks
    ([quick_start.ipynb], [yolov12.ipynb], [rfdetr.ipynb]) and of the
    GitHub workflow [.github/workflows/test_documentation.yml], with the
    properties the specification states about them. *)

From stdpp Require Import gmap strings list pretty.
From Stdlib Require Import ZArith.

Local Open Scope string_scope.
Local Open Scope list_scope.

(** ** Python values, keyword arguments and exceptions *)

Module Py.

(** The literals that appear as keyword arguments in the notebooks. A float
    literal is kept as written: mantissa and decimal exponent
    ([1e-4] is [VFloat 1 (-4)], [0.001] is [VFloat 1 (-3)]). *)
Inductive value :=
| VStr (s : string)
| VInt (z : Z)
| VBool (b : bool)
| VFloat (mantissa exponent : Z).

(** A raised exception: its class and its message. *)
Inductive exn := Exception (cls msg : string).

(** Keyword arguments of a call, in the order they are written. *)
Definition kwargs := list (string * value).

Fixpoint kwarg (k : string) (kw : kwargs) : option value :=
  match kw with
  | [] => None
  | (k', v) :: rest => if String.eqb k k' then Some v else kwarg k rest
  end.

Definition keys (kw : kwargs) : list string := map fst kw.

Definition is_str (v : value) : bool :=
  match v with VStr _ => true | _ => false end.

Definition is_bool (v : value) : bool :=
  match v with VBool _ => true | _ => false end.

Definition is_positive_int (v : value) : bool :=
  match v with VInt z => Z.ltb 0 z | _ => false end.

End Py.

(** ** Running a cell: external calls, exceptions and the call trace *)

Module Exec.

(** What a Python call does: it returns a value or raises. *)
Inductive outcome (A : Type) :=
| Returned (a : A)
| Raised (e : Py.exn).
Arguments Returned {A} a.
Arguments Raised {A} e.

(** The trace records, for each call into an external library, whether it
    returned or which exception it raised. *)
Inductive event :=
| Done (callee : string)
| Failed (callee : string) (e : Py.exn).

(** A trace without a failed call. *)
Definition clean (evs : list event) : Prop :=
  forall n e, Failed n e ∉ evs.

Section Monad.
Context {W : Type}.

(** An external library function acts on the world [W] (file system,
    devices, random state) and returns or raises. *)
Definition Ext (A : Type) : Type := W -> outcome A * W.

Record state := { world : W; trace : list event }.

(** Code of a cell: it transforms the state and returns or raises. The
    trace is ghost state: no library function sees it. *)
Definition M (A : Type) : Type := state -> outcome A * state.

Definition ret {A} (a : A) : M A := fun s => (Returned a, s).

Definition bind {A B} (m : M A) (k : A -> M B) : M B :=
  fun s => match m s with
           | (Returned a, s') => k a s'
           | (Raised e, s') => (Raised e, s')
           end.

(** An exception raised by the interpreter itself (an unbound name). *)
Definition raise {A} (e : Py.exn) : M A := fun s => (Raised e, s).

(** A call into an external library. *)
Definition call {A} (callee : string) (f : Ext A) : M A :=
  fun s =>
    let (r, w) := f (world s) in
    (r, {| world := w;
           trace := trace s ++ [match r with
                                | Returned _ => Done callee
                                | Raised e => Failed callee e
                                end] |}).

(** [try: m except Exception as e: h e]. No notebook uses it; it is here
    to show what the propagation property excludes. *)
Definition try_except {A} (m : M A) (h : Py.exn -> M A) : M A :=
  fun s => match m s with
           | (Returned a, s') => (Returned a, s')
           | (Raised e, s') => h e s'
           end.

(** [for x in xs: st = body x st], with the loop-carried variables [st]. *)
Fixpoint for_fold {X S} (xs : list X) (body : X -> S -> M S) (st : S) : M S :=
  match xs with
  | [] => ret st
  | x :: rest => bind (body x st) (for_fold rest body)
  end.

(** Running a cell in a fresh trace. *)
Definition run {A} (m : M A) (w : W) : outcome A * state :=
  m {| world := w; trace := [] |}.

(** Every failure of an external call ends the run: it is the last event
    of what the code appends to the trace, and the code raises exactly
    that exception. *)
Definition propagates {A} (m : M A) : Prop :=
  forall s, exists evs,
    trace (m s).2 = trace s ++ evs /\
    forall n e, Failed n e ∈ evs ->
      (m s).1 = Raised e /\ exists pre, evs = pre ++ [Failed n e] /\ clean pre.


End Monad.

Arguments Ext W A : clear implicits.
Arguments M W A : clear implicits.
Arguments state W : clear implicits.

End Exec.

Declare Scope cell_scope.
Delimit Scope cell_scope with cell.
Notation "'let*' x := m 'in' k" := (Exec.bind m (fun x => k))
  (at level 10, x binder, m at level 100, k at level 200) : cell_scope.

(** ** The objects the notebooks handle *)

Module Objects.
Section Types.
Context {Tensor Scalar : Type}.

(** [v2.Resize((h, w))], [v2.ToImage()], [v2.ToDtype(dtype, scale=...)]. *)
Inductive transform :=
| Resize (height width : nat)
| ToImage
| ToDtype (dtype : string) (scale : bool).

(** [datasets.ImageFolder]: the class names and the samples
    (file path, class index), with the transform applied on access. *)
Record ImageFolder := {
  classes : list string;
  samples : list (string * nat);
  transforms : list transform
}.

Record DataLoader := {
  dataset : ImageFolder;
  batch_size : nat;
  shuffle : bool;
  drop_last : bool
}.

(** [tqdm.tqdm(iterable, desc=...)]. *)
Record tqdm := { iterable : DataLoader; desc : string }.

(** One item of the loader: the [inputs] and [labels] tensors. *)
Record batch := { inputs : Tensor; labels : Tensor }.

(** [nn.Linear(in_features, out_features)] with its two parameters. *)
Record Linear := {
  in_features : nat;
  out_features : nat;
  weight : Tensor;
  bias : Tensor
}.

(** A ResNet as the cell sees it: the tensors of its [state_dict], by name (the
    entries ["fc.weight"] and ["fc.bias"] belong to the head [fc]), the
    dimensions of [fc], the gradients held by the parameters and the
    device. *)
Record ResNet := {
  params : gmap string Tensor;
  fc_in_features : nat;
  fc_out_features : nat;
  grads : gmap string Tensor;
  device : string
}.


(** [model.fc = layer]: the head's parameters and dimensions are those of
    [layer]; parameters of the old head, gradients included, are gone. *)
Definition set_fc (m : ResNet) (layer : Linear) : ResNet :=
  {| params := <["fc.bias" := bias layer]> (<["fc.weight" := weight layer]> (params m));
     fc_in_features := in_features layer;
     fc_out_features := out_features layer;
     grads := delete "fc.bias" (delete "fc.weight" (grads m));
     device := device m |}.

(** [optim.Adam(model.parameters(), lr=...)]: the optimizer refers to the
    parameters of the model by name, it holds no copy of them. *)
Record Adam := {
  param_names : list string;
  lr : Py.value;
  moments : gmap string Tensor * gmap string Tensor;
  steps : nat
}.

(** The scalar tensor [criterion(outputs, labels)]: its value and the
    tensors it was computed from, which [backward()] differentiates. *)
Record loss_tensor := { scalar : Scalar; of_outputs : Tensor; of_labels : Tensor }.

(** A two-dimensional array: its rows all have [embedding_dim] entries. *)
Record array2 := { embedding_dim : nat; rows : list (vec Scalar embedding_dim) }.

(** [a.shape]. *)
Definition shape (a : array2) : nat * nat := (length (rows a), embedding_dim a).

(** A value of a loaded dictionary, and what [torch.load] can return: a
    [state_dict] or a dictionary of such values. *)
Inductive field := Names (l : list string) | Array (a : array2).

Inductive pickled :=
| StateDict (sd : gmap string Tensor)
| Dict (d : gmap string field).

(** What the notebooks pass to [print]. *)
Inductive printable :=
| Text (s : string)
| Value (f : field)
| Shape (s : nat * nat).

End Types.

Arguments array2 Scalar : clear implicits.
Arguments field Scalar : clear implicits.
Arguments pickled Tensor Scalar : clear implicits.
Arguments printable Scalar : clear implicits.
Arguments batch Tensor : clear implicits.
Arguments Linear Tensor : clear implicits.
Arguments ResNet Tensor : clear implicits.
Arguments Adam Tensor : clear implicits.
Arguments loss_tensor Tensor Scalar : clear implicits.

End Objects.

(** ** The external libraries the notebooks call

    Each library is a record of its entry points. The notebooks are
    written against these records, so a property proved for every record
    holds whatever the libraries do. *)

Module python.
Section Api.
Context {W Scalar : Type}.
Record api := {
  (** An import statement, given as written. *)
  import : string -> Exec.Ext W unit;
  print : list (Objects.printable Scalar) -> Exec.Ext W unit;
  (** [f"{x:.4f}"]. *)
  format_4f : Scalar -> string;
  (** A [!command] line of a cell. *)
  sh : string -> Exec.Ext W unit
}.
End Api.
Arguments api W Scalar : clear implicits.
End python.

Module lightly_train.
Section Api.
Context {W : Type}.
Record api := {
  train : Py.kwargs -> Exec.Ext W unit;
  embed : Py.kwargs -> Exec.Ext W unit
}.
End Api.
Arguments api W : clear implicits.
End lightly_train.

Module ultralytics.
Section Api.
Context {W Obj : Type}.
Record api := {
  check_det_dataset : string -> Exec.Ext W Obj;
  (** [settings[key]]. *)
  settings : string -> Exec.Ext W string;
  YOLO : string -> Exec.Ext W Obj;
  (** [model.train(...)] of a [YOLO] model. *)
  train : Obj -> Py.kwargs -> Exec.Ext W unit
}.
End Api.
Arguments api W Obj : clear implicits.
End ultralytics.

Module flash_attn.
Record api := { version : string }.
End flash_attn.

Module roboflow.
Section Api.
Context {W Obj : Type}.
Record api := {
  Roboflow : Py.kwargs -> Exec.Ext W Obj;
  workspace : Obj -> string -> Exec.Ext W Obj;
  project : Obj -> string -> Exec.Ext W Obj;
  version : Obj -> Z -> Exec.Ext W Obj;
  download : Obj -> string -> Exec.Ext W Obj;
  (** The attribute [dataset.location]. *)
  location : Obj -> string
}.
End Api.
Arguments api W Obj : clear implicits.
End roboflow.

Module rfdetr.
Section Api.
Context {W Obj : Type}.
Record api := {
  RFDETRBase : Py.kwargs -> Exec.Ext W Obj;
  (** [model.train(...)] of an [RFDETRBase] model. *)
  train : Obj -> Py.kwargs -> Exec.Ext W unit
}.
End Api.
Arguments api W Obj : clear implicits.
End rfdetr.

Module torch.
Import Objects.
Section Api.
Context {W Tensor Scalar : Type}.
Record api := {
  (** [transforms.Compose([...])]. *)
  Compose : list transform -> Exec.Ext W (list transform);
  (** [datasets.ImageFolder(root=..., transform=...)]. *)
  ImageFolder : string -> list transform -> Exec.Ext W Objects.ImageFolder;
  (** [DataLoader(dataset, batch_size=..., shuffle=..., drop_last=...)]. *)
  DataLoader : Objects.ImageFolder -> nat -> bool -> bool -> Exec.Ext W Objects.DataLoader;
  (** [models.resnet18()]. *)
  resnet18 : Exec.Ext W (ResNet Tensor);
  (** [torch.load(path)] and [torch.load(path, weights_only=...)]. *)
  load : string -> option bool -> Exec.Ext W (pickled Tensor Scalar);
  (** [model.load_state_dict(obj)]. *)
  load_state_dict : ResNet Tensor -> pickled Tensor Scalar -> Exec.Ext W (ResNet Tensor);
  (** [nn.Linear(in_features, out_features)]. *)
  Linear : nat -> nat -> Exec.Ext W (Objects.Linear Tensor);
  cuda_is_available : Exec.Ext W bool;
  mps_is_available : Exec.Ext W bool;
  (** [model.to(device)] and [tensor.to(device)]. *)
  model_to : ResNet Tensor -> string -> Exec.Ext W (ResNet Tensor);
  tensor_to : Tensor -> string -> Exec.Ext W Tensor;
  (** [nn.CrossEntropyLoss()] takes no argument; calling the criterion is
      [cross_entropy]. *)
  CrossEntropyLoss : Exec.Ext W unit;
  cross_entropy : Tensor -> Tensor -> Exec.Ext W (loss_tensor Tensor Scalar);
  (** [optim.Adam(model.parameters(), lr=...)]. *)
  Adam : ResNet Tensor -> Py.value -> Exec.Ext W (Objects.Adam Tensor);
  (** [tqdm.tqdm(loader, desc=...)], the batches it yields when the
      [for] statement iterates it to the end, and
      [progress_bar.set_postfix(loss=...)]. *)
  tqdm : Objects.DataLoader -> string -> Exec.Ext W Objects.tqdm;
  iterate : Objects.tqdm -> Exec.Ext W (list (batch Tensor));
  set_postfix : Objects.tqdm -> string -> Exec.Ext W unit;
  (** [optimizer.zero_grad()], [model(x)], [loss.backward()],
      [optimizer.step()], [loss.item()]. The optimizer and the loss reach
      the parameters of the model, and a forward pass in training mode
      updates its buffers, so these take and return the model. *)
  zero_grad : Objects.Adam Tensor -> ResNet Tensor -> Exec.Ext W (ResNet Tensor);
  forward : ResNet Tensor -> Tensor -> Exec.Ext W (Tensor * ResNet Tensor);
  backward : loss_tensor Tensor Scalar -> ResNet Tensor -> Exec.Ext W (ResNet Tensor);
  step : Objects.Adam Tensor -> ResNet Tensor
         -> Exec.Ext W (Objects.Adam Tensor * ResNet Tensor);
  item : loss_tensor Tensor Scalar -> Exec.Ext W Scalar
}.
End Api.
Arguments api W Tensor Scalar : clear implicits.
End torch.

(** ** The notebooks *)

(** The double quote character of a shell line. *)
Definition double_quote : string := String (Ascii.ascii_of_nat 34) EmptyString.

(** [__name__] in a notebook kernel. *)
Definition dunder_name : string := "__main__".

(** *** quick_start.ipynb *)

Module quick_start.
Import Py Exec Objects.
Local Open Scope cell_scope.

(** Keyword arguments of [lightly_train.train] (lines 90-96). *)
Definition train_kwargs : kwargs :=
  [ ("out", VStr "out/my_experiment");
    ("data", VStr "my_data_dir");
    ("model", VStr "torchvision/resnet18");
    ("epochs", VInt 10);
    ("batch_size", VInt 32) ].

(** Keyword arguments of [lightly_train.embed] (lines 234-238). *)
Definition embed_kwargs : kwargs :=
  [ ("out", VStr "my_embeddings.pth");
    ("checkpoint", VStr "out/my_experiment/checkpoints/last.ckpt");
    ("data", VStr "my_data_dir") ].

(** The path the fine-tuning cell loads (line 178). *)
Definition exported_model : string :=
  "out/my_experiment/exported_models/exported_last.pt".

(** Lines 165-171. *)
Definition transform : list Objects.transform :=
  [ Resize 224 224; ToImage; ToDtype "torch.float32" true ].

Definition num_epochs : nat := 10.

Section Cells.
Context {W Tensor Scalar : Type}.
Context (py : python.api W Scalar) (lt : lightly_train.api W)
        (th : torch.api W Tensor Scalar).

(** Line 29. *)
Definition install : M W unit :=
  call "!pip" (python.sh py "pip install lightly-train").

(** Lines 61-62. *)
Definition prepare_data : M W unit :=
  let* _ := call "!git" (python.sh py
    "git clone https://github.com/lightly-ai/dataset_clothing_images.git my_data_dir") in
  call "!rm" (python.sh py "rm -rf my_data_dir/.git").

(** Lines 87-96. *)
Definition train : M W unit :=
  let* _ := call "import" (python.import py "import lightly_train") in
  call "lightly_train.train" (lightly_train.train lt train_kwargs).

(** The global names of the fine-tuning cell that the loop reads. *)
Record globals := {
  dataset : ImageFolder;
  dataloader : DataLoader;
  model : ResNet Tensor;
  device : string;
  optimizer : Adam Tensor
}.

(** Lines 184-190: the conditional expression evaluates
    [torch.backends.mps.is_available()] only when CUDA is not available. *)
Definition select_device : M W string :=
  let* cuda := call "torch.cuda.is_available" (torch.cuda_is_available th) in
  if cuda : bool then ret "cuda"
  else
    let* mps := call "torch.backends.mps.is_available" (torch.mps_is_available th) in
    ret (if mps : bool then "mps" else "cpu").

(** Lines 158-195: everything before the loop. *)
Definition fine_tune_setup : M W globals :=
  let* _ := call "import" (python.import py "import torch") in
  let* _ := call "import" (python.import py "import torchvision.transforms.v2 as v2") in
  let* _ := call "import" (python.import py "import tqdm") in
  let* _ := call "import" (python.import py "from torch import nn, optim") in
  let* _ := call "import" (python.import py "from torch.utils.data import DataLoader") in
  let* _ := call "import" (python.import py
              "from torchvision import datasets, models, transforms") in
  let* transform := call "transforms.Compose" (torch.Compose th transform) in
  let* dataset := call "datasets.ImageFolder" (torch.ImageFolder th "my_data_dir" transform) in
  let* dataloader := call "DataLoader" (torch.DataLoader th dataset 16 true true) in
  let* model := call "models.resnet18" (torch.resnet18 th) in
  let* weights := call "torch.load" (torch.load th exported_model (Some true)) in
  let* model := call "model.load_state_dict" (torch.load_state_dict th model weights) in
  let* head := call "nn.Linear"
                 (torch.Linear th (fc_in_features model) (length (classes dataset))) in
  let model := set_fc model head in
  let* device := select_device in
  let* model := call "model.to" (torch.model_to th model device) in
  let* _ := call "nn.CrossEntropyLoss" (torch.CrossEntropyLoss th) in
  let* optimizer := call "optim.Adam" (torch.Adam th model (VFloat 1 (-3))) in
  let* _ := call "print" (python.print py [Text "Starting fine-tuning..."]) in
  ret {| dataset := dataset; dataloader := dataloader; model := model;
         device := device; optimizer := optimizer |}.

(** The names the loop assigns and reads again: the model and the
    optimizer (updated in place), [running_loss], bound by line 198 only,
    and [loss], bound by the body of the inner loop only. *)
Record loop_vars := {
  cur_model : ResNet Tensor;
  cur_optimizer : Adam Tensor;
  running_loss : option value;
  loss : option (loss_tensor Tensor Scalar)
}.

(** Reading a global name: [NameError] when it was never bound. *)
Definition name {A} (x : string) (v : option A) : M W A :=
  match v with
  | Some a => ret a
  | None => raise (Exception "NameError" ("name '" +:+ x +:+ "' is not defined"))
  end.

(** Lines 201-206: the body of the inner loop. *)
Definition batch_body (dev : string) (progress_bar : tqdm)
    (b : batch Tensor) (v : loop_vars) : M W loop_vars :=
  let* m := call "optimizer.zero_grad" (torch.zero_grad th (cur_optimizer v) (cur_model v)) in
  let* x := call "inputs.to" (torch.tensor_to th (inputs b) dev) in
  let* out := call "model" (torch.forward th m x) in
  let* y := call "labels.to" (torch.tensor_to th (labels b) dev) in
  let* l := call "criterion" (torch.cross_entropy th out.1 y) in
  let* m := call "loss.backward" (torch.backward th l out.2) in
  let* om := call "optimizer.step" (torch.step th (cur_optimizer v) m) in
  let* shown := call "loss.item" (torch.item th l) in
  let* _ := call "progress_bar.set_postfix"
              (torch.set_postfix th progress_bar (python.format_4f py shown)) in
  ret {| cur_model := om.2; cur_optimizer := om.1;
         running_loss := running_loss v; loss := Some l |}.

(** The line printed at the end of an epoch (line 207). *)
Definition epoch_line (epoch : nat) (shown : Scalar) : string :=
  "Epoch [" +:+ pretty (epoch + 1) +:+ "/" +:+ pretty num_epochs +:+ "], Loss: "
  +:+ python.format_4f py shown.

(** Lines 198-207: one pass of the outer loop. *)
Definition epoch_body (g : globals) (epoch : nat) (v : loop_vars) : M W loop_vars :=
  let v := {| cur_model := cur_model v; cur_optimizer := cur_optimizer v;
              running_loss := Some (VFloat 0 0); loss := loss v |} in
  let* progress_bar :=
    call "tqdm.tqdm" (torch.tqdm th (dataloader g)
      ("Epoch " +:+ pretty (epoch + 1) +:+ "/" +:+ pretty num_epochs)) in
  let* batches := call "iter" (torch.iterate th progress_bar) in
  let* v := for_fold batches (batch_body (device g) progress_bar) v in
  let* l := name "loss" (loss v) in
  let* shown := call "loss.item" (torch.item th l) in
  let* _ := call "print" (python.print py [Text (epoch_line epoch shown)]) in
  ret v.

(** Lines 196-207. *)
Definition fine_tune_loop (g : globals) : M W loop_vars :=
  for_fold (seq 0 num_epochs) (epoch_body g)
    {| cur_model := model g; cur_optimizer := optimizer g;
       running_loss := None; loss := None |}.

(** Lines 158-207. *)
Definition fine_tune : M W unit :=
  let* g := fine_tune_setup in
  let* _ := fine_tune_loop g in
  ret tt.

(** Lines 232-238. *)
Definition embed : M W unit :=
  let* _ := call "import" (python.import py "import lightly_train") in
  call "lightly_train.embed" (lightly_train.embed lt embed_kwargs).

(** [d[key]] on a loaded object: [KeyError] when the key is missing. *)
Definition getitem (obj : pickled Tensor Scalar) (key : string) : M W (field Scalar) :=
  match obj with
  | Dict d =>
      match d !! key with
      | Some f => ret f
      | None => raise (Exception "KeyError" key)
      end
  | StateDict _ => raise (Exception "KeyError" key)
  end.

(** [x[:5]]. *)
Definition first_five (f : field Scalar) : field Scalar :=
  match f with
  | Names l => Names (take 5 l)
  | Array a => Array {| embedding_dim := embedding_dim a; rows := take 5 (rows a) |}
  end.

(** [x.shape]: a list has no such attribute. *)
Definition shape_of (f : field Scalar) : M W (nat * nat) :=
  match f with
  | Array a => ret (shape a)
  | Names _ =>
      raise (Exception "AttributeError" "'list' object has no attribute 'shape'")
  end.

(** Lines 254-262. *)
Definition load_embeddings : M W unit :=
  let* _ := call "import" (python.import py "import torch") in
  let* embeddings := call "torch.load" (torch.load th "my_embeddings.pth" None) in
  let* _ := call "print" (python.print py [Text "First five filenames:"]) in
  let* names := getitem embeddings "filenames" in
  let* _ := call "print" (python.print py [Value (first_five names)]) in
  let* _ := call "print" (python.print py [Text "
Embedding tensor shape:"]) in
  let* array := getitem embeddings "embeddings" in
  let* s := shape_of array in
  call "print" (python.print py [Shape s]).

(** The cells that follow the preparation of the data. *)
Definition after_prepare_data : M W unit :=
  let* _ := train in
  let* _ := fine_tune in
  let* _ := embed in
  load_embeddings.

(** The code cells in order. *)
Definition notebook : M W unit :=
  let* _ := install in
  let* _ := prepare_data in
  after_prepare_data.

End Cells.

Arguments globals Tensor : clear implicits.
Arguments loop_vars Tensor Scalar : clear implicits.

End quick_start.

(** *** yolov12.ipynb *)

Module yolov12.
Import Py Exec.
Local Open Scope cell_scope.

(** Keyword arguments of [lightly_train.train] (lines 246-253);
    [datasets_dir] is the value of [settings['datasets_dir']]. *)
Definition train_kwargs (datasets_dir : string) : kwargs :=
  [ ("out", VStr "out/my_experiment");
    ("data", VStr (datasets_dir +:+ "/coco8/images/train"));
    ("model", VStr "ultralytics/yolov12s.yaml");
    ("epochs", VInt 10);
    ("batch_size", VInt 32);
    ("overwrite", VBool true) ].

(** The path given to [YOLO] (line 275). *)
Definition exported_model : string :=
  "out/my_experiment/exported_models/exported_last.pt".

(** Keyword arguments of [model.train] (line 278). *)
Definition fine_tune_kwargs : kwargs :=
  [ ("data", VStr "coco8.yaml"); ("epochs", VInt 10) ].

Section Cells.
Context {W Scalar Obj : Type}.
Context (py : python.api W Scalar) (lt : lightly_train.api W)
        (ul : ultralytics.api W Obj) (fa : flash_attn.api).

(** Lines 40, 73 and 106. *)
Definition install : M W unit :=
  let* _ := call "!pip" (python.sh py "pip install lightly_train") in
  let* _ := call "!pip" (python.sh py
              "pip install git+https://github.com/sunsmarterjie/yolov12") in
  call "!pip" (python.sh py "pip install flash-attn --no-build-isolation").

(** Lines 124-126. *)
Definition verify_flash_attn : M W unit :=
  let* _ := call "import" (python.import py "import flash_attn") in
  call "print" (python.print py
    [Objects.Text "FlashAttention version:"; Objects.Text (flash_attn.version fa)]).

(** Lines 159-161 and 179-181. *)
Definition prepare_data : M W unit :=
  let* _ := call "import" (python.import py
              "from ultralytics.data.utils import check_det_dataset") in
  let* _ := call "check_det_dataset" (ultralytics.check_det_dataset ul "coco8.yaml") in
  let* _ := call "import" (python.import py "from ultralytics import settings") in
  let* _ := call "settings.__getitem__" (ultralytics.settings ul "datasets_dir") in
  ret tt.

(** Lines 243-253. *)
Definition train : M W unit :=
  let* _ := call "import" (python.import py "import lightly_train") in
  if String.eqb dunder_name "__main__" then
    let* datasets_dir :=
      call "settings.__getitem__" (ultralytics.settings ul "datasets_dir") in
    call "lightly_train.train" (lightly_train.train lt (train_kwargs datasets_dir))
  else ret tt.

(** Lines 271-278. *)
Definition fine_tune : M W unit :=
  let* _ := call "import" (python.import py "from ultralytics import YOLO") in
  if String.eqb dunder_name "__main__" then
    let* model := call "YOLO" (ultralytics.YOLO ul exported_model) in
    call "model.train" (ultralytics.train ul model fine_tune_kwargs)
  else ret tt.

(** The code cells in order. *)
Definition notebook : M W unit :=
  let* _ := install in
  let* _ := verify_flash_attn in
  let* _ := prepare_data in
  let* _ := train in
  fine_tune.

End Cells.
End yolov12.

(** *** rfdetr.ipynb *)

Module rfdetr_nb.
Import Py Exec.
Local Open Scope cell_scope.

(** Keyword arguments of [lightly_train.train] (lines 430-437);
    [location] is the value of [pretrain_dataset.location]. *)
Definition train_kwargs (location : string) : kwargs :=
  [ ("out", VStr "out/my_experiment");
    ("data", VStr location);
    ("model", VStr "rfdetr/rf-detr-base");
    ("epochs", VInt 5);
    ("batch_size", VInt 16);
    ("overwrite", VBool true) ].

(** The path given as [pretrain_weights] (line 457). *)
Definition exported_model : string :=
  "out/my_experiment/exported_models/exported_last.pt".

(** Keyword arguments of [model.train] (line 458); [location] is the
    value of [finetune_dataset.location]. *)
Definition fine_tune_kwargs (location : string) : kwargs :=
  [ ("dataset_dir", VStr location);
    ("epochs", VInt 10);
    ("batch_size", VInt 4);
    ("lr", VFloat 1 (-4)) ].

Section Cells.
Context {W Scalar Obj : Type}.
Context (py : python.api W Scalar) (lt : lightly_train.api W)
        (rb : roboflow.api W Obj) (rd : rfdetr.api W Obj).

(** Line 327. *)
Definition install : M W unit :=
  call "!pip" (python.sh py
    ("pip install " +:+ double_quote +:+ "lightly-train[rfdetr]" +:+ double_quote)).

(** Lines 359-361. *)
Definition connect : M W Obj :=
  let* _ := call "import" (python.import py "from roboflow import Roboflow") in
  call "Roboflow" (roboflow.Roboflow rb [("api_key", VStr "your_roboflow_api_key")]).

(** Lines 377-379 and 395-397, with the workspace, project and version
    of each. *)
Definition download (rf : Obj) (ws pr : string) (v : Z) : M W Obj :=
  let* w := call "rf.workspace" (roboflow.workspace rb rf ws) in
  let* project := call "workspace.project" (roboflow.project rb w pr) in
  let* version := call "project.version" (roboflow.version rb project v) in
  call "version.download" (roboflow.download rb version "coco").

(** Lines 427-437. *)
Definition train (pretrain_dataset : Obj) : M W unit :=
  let* _ := call "import" (python.import py "import lightly_train") in
  if String.eqb dunder_name "__main__" then
    call "lightly_train.train"
      (lightly_train.train lt (train_kwargs (roboflow.location rb pretrain_dataset)))
  else ret tt.

(** Lines 455-458. *)
Definition fine_tune (finetune_dataset : Obj) : M W unit :=
  let* _ := call "import" (python.import py "from rfdetr import RFDETRBase") in
  let* model := call "RFDETRBase"
                  (rfdetr.RFDETRBase rd [("pretrain_weights", VStr exported_model)]) in
  call "model.train"
    (rfdetr.train rd model (fine_tune_kwargs (roboflow.location rb finetune_dataset))).

(** The code cells in order. *)
Definition notebook : M W unit :=
  let* _ := install in
  let* rf := connect in
  let* pretrain_dataset := download rf "traindataset" "coconuts-plj8h" 1 in
  let* finetune_dataset := download rf "ravi-mgvlz" "coconut-custom-dataset" 3 in
  let* _ := train pretrain_dataset in
  fine_tune finetune_dataset.

End Cells.
End rfdetr_nb.

(** *** All code cells of the repository *)

Module Repository.
Section All.
Context {W Tensor Scalar Obj : Type}.
Context (py : python.api W Scalar) (lt : lightly_train.api W)
        (th : torch.api W Tensor Scalar) (ul : ultralytics.api W Obj)
        (fa : flash_attn.api) (rb : roboflow.api W Obj) (rd : rfdetr.api W Obj).

Definition notebooks : list (Exec.M W unit) :=
  [ quick_start.notebook py lt th;
    yolov12.notebook py lt ul fa;
    rfdetr_nb.notebook py lt rb rd ].

End All.
End Repository.

(** ** The documentation workflow *)

Module Workflow.

(** The glob shapes the filter uses, in picomatch syntax: [dir/**], a
    literal path, and the negation [!p]. *)
Inductive pattern :=
| Under (dir : string)
| Literal (path : string)
| Not (p : pattern).

(** [dir/**] holds of the files below [dir/]; a negated pattern holds of
    exactly the files its body rejects. *)
Fixpoint picomatch (p : pattern) (file : string) : bool :=
  match p with
  | Under d => String.prefix (d +:+ "/") file
  | Literal s => String.eqb s file
  | Not q => negb (picomatch q file)
  end.

(** The [predicate-quantifier] input of dorny/paths-filter@v3: a file
    belongs to a filter when some (the default) or every pattern of the
    filter holds of it. *)
Inductive quantifier := QSome | QEvery.

Record paths_filter := {
  list_files : string;
  filters : list (string * list pattern);
  predicate_quantifier : option quantifier
}.

Definition workflow_file : string := ".github/workflows/test_documentation.yml".

(** The [with:] block of the [filter] step (lines 25-31): no
    [predicate-quantifier] is given. *)
Definition filter_step : paths_filter := {|
  list_files := "shell";
  filters := [("run-tests",
               [Not (Under "docker"); Not (Under ".github"); Literal workflow_file])];
  predicate_quantifier := None
|}.

Definition file_matches (q : quantifier) (pats : list pattern) (file : string) : bool :=
  match q with
  | QSome => existsb (fun p => picomatch p file) pats
  | QEvery => forallb (fun p => picomatch p file) pats
  end.

Fixpoint rules (key : string) (fs : list (string * list pattern)) : list pattern :=
  match fs with
  | [] => []
  | (k, pats) :: rest => if String.eqb key k then pats else rules key rest
  end.

(** The files of the change set that belong to the filter [key]. *)
Definition matching_files (cfg : paths_filter) (key : string) (changed : list string)
  : list string :=
  filter (fun f => file_matches (default QSome (predicate_quantifier cfg))
                                (rules key (filters cfg)) f = true) changed.

(** The step output named after the filter: ['true'] when at least one
    changed file belongs to it, ['false'] otherwise. *)
Definition filter_output (cfg : paths_filter) (key : string) (changed : list string)
  : string :=
  match matching_files cfg key changed with
  | [] => "false"
  | _ :: _ => "true"
  end.

(** A step either uses an action or runs a shell script. *)
Inductive step_body := Uses (action : string) | Run (script : string).

Record step := { step_name : string; body : step_body }.

(** Steps of [detect-code-changes] (lines 21-31). *)
Definition detect_code_changes_steps : list step :=
  [ {| step_name := "checkout"; body := Uses "actions/checkout@v4" |};
    {| step_name := "filter"; body := Uses "dorny/paths-filter@v3" |} ].

(** Steps of [test-documentation] (lines 37-57). *)
Definition test_documentation_steps : list step :=
  [ {| step_name := "Checkout code"; body := Uses "actions/checkout@v4" |};
    {| step_name := "Set Up uv"; body := Uses "astral-sh/setup-uv@v5" |};
    {| step_name := "Set Up Python"; body := Uses "actions/setup-python@v5" |};
    {| step_name := "Set Up Environment"; body := Run "make install-docs" |};
    {| step_name := "Build"; body := Run "cd docs && make docs docs-stable" |} ].

Inductive conclusion := Success | Failure | Skipped.

(** Steps run in order; the first non-zero exit status fails the job and
    the remaining steps do not run. [exit] is what each step returns. *)
Fixpoint run_steps (exit : step -> Z) (ss : list step) : conclusion :=
  match ss with
  | [] => Success
  | s :: rest => if Z.eqb (exit s) 0 then run_steps exit rest else Failure
  end.

(** Output [run-tests] of [detect-code-changes] (line 20): the filter's
    output when the job succeeded, empty otherwise. *)
Definition run_tests_output (exit : step -> Z) (changed : list string) : string :=
  match run_steps exit detect_code_changes_steps with
  | Success => filter_output filter_step "run-tests" changed
  | _ => ""
  end.

(** Line 35: [if: needs.detect-code-changes.outputs.run-tests == 'true'],
    on top of the implicit requirement that the needed job succeeded. *)
Definition test_documentation_executes (exit : step -> Z) (changed : list string) : bool :=
  match run_steps exit detect_code_changes_steps with
  | Success => String.eqb (run_tests_output exit changed) "true"
  | _ => false
  end.

Definition test_documentation (exit : step -> Z) (changed : list string) : conclusion :=
  if test_documentation_executes exit changed
  then run_steps exit test_documentation_steps
  else Skipped.

(** The reading of the filter the specification gives: some changed file
    is outside both [docker/] and [.github/], or is the workflow file. *)
Definition documentation_relevant (file : string) : bool :=
  (negb (String.prefix "docker/" file) && negb (String.prefix ".github/" file))
  || String.eqb file workflow_file.

Definition documentation_changed (changed : list string) : bool :=
  existsb documentation_relevant changed.

End Workflow.

(** ** Reference behaviour of the libraries *)

Module Reference.
Import Py Exec Objects.

(** [d/] is a prefix of [path]. *)
Definition under (d path : string) : bool := String.prefix (d +:+ "/") path.


(** A batch sampler: groups of [bs] consecutive items; an incomplete last
    group is kept unless [drop]. [fuel] bounds the number of groups. *)
Fixpoint chunks {X} (fuel bs : nat) (drop : bool) (l : list X) : list (list X) :=
  match fuel with
  | 0 => []
  | S fuel' =>
      match l with
      | [] => []
      | _ :: _ =>
          if Nat.ltb (length l) bs then (if drop then [] else [l])
          else take bs l :: chunks fuel' bs drop (List.skipn bs l)
      end
  end.

(** A random order: draw a position among the remaining items, [n] times. *)
Fixpoint draw {X} (rand : nat -> nat) (n seed : nat) (l : list X) : list X :=
  match n with
  | 0 => []
  | S n' =>
      let i := Nat.modulo (rand seed) (length l) in
      match l !! i with
      | Some x => x :: draw rand n' (S seed) (delete i l)
      | None => []
      end
  end.

Definition shuffled {X} (rand : nat -> nat) (seed : nat) (l : list X) : list X :=
  draw rand (length l) seed l.

Section Model.
Context {Image Tensor Scalar : Type}.

Inductive file :=
| ImageFile (img : Image)
| Pickle (obj : pickled Tensor Scalar)
| Other (content : string).

(** The world of a kernel: files by path, what was printed, the random
    state and the accelerators. *)
Record world := {
  fs : gmap string file;
  stdout : list (list (printable Scalar));
  seed : nat;
  cuda : bool;
  mps : bool
}.

Definition with_fs (w : world) (f : gmap string file) : world :=
  {| fs := f; stdout := stdout w; seed := seed w; cuda := cuda w; mps := mps w |}.

Definition with_seed (w : world) (n : nat) : world :=
  {| fs := fs w; stdout := stdout w; seed := n; cuda := cuda w; mps := mps w |}.

Definition with_stdout (w : world) (l : list (list (printable Scalar))) : world :=
  {| fs := fs w; stdout := l; seed := seed w; cuda := cuda w; mps := mps w |}.

(** *** Python and the shell *)

(** [sh_effect] is what a shell line does to the files, [fmt] is
    [f"{x:.4f}"]. *)
Definition python_ref (sh_effect : string -> gmap string file -> gmap string file)
    (fmt : Scalar -> string) : python.api world Scalar := {|
  python.import := fun _ w => (Returned tt, w);
  python.print := fun items w => (Returned tt, with_stdout w (stdout w ++ [items]));
  python.format_4f := fmt;
  python.sh := fun cmd w => (Returned tt, with_fs w (sh_effect cmd (fs w)))
|}.

(** *** torch, torchvision and tqdm *)

(** The numerical side of the libraries is kept abstract:
    - [find_images fs root]: the classes and samples [ImageFolder] finds
      below [root], or nothing when it finds no class folder;
    - [rand]: the random numbers of the sampler;
    - [collate fs transforms items]: the batch made of the given samples;
    - [resnet18_init seed]: a freshly initialised ResNet-18;
    - [linear_init i o seed]: weight and bias of a fresh [nn.Linear(i, o)];
    - [tshape]: the shape of a tensor;
    - [net], [bn_update]: the outputs of a forward pass and the buffers
      after it;
    - [nll]: the value of the cross-entropy loss;
    - [autograd params grads loss]: the gradients after [backward()];
    - [adam_update]: one Adam step. *)
Record kernels := {
  find_images : gmap string file -> string -> option (list string * list (string * nat));
  rand : nat -> nat;
  collate : gmap string file -> list transform -> list (string * nat) -> batch Tensor;
  resnet18_init : nat -> ResNet Tensor;
  linear_init : nat -> nat -> nat -> Tensor * Tensor;
  tshape : Tensor -> list nat;
  net : gmap string Tensor -> Tensor -> Tensor;
  bn_update : gmap string Tensor -> Tensor -> gmap string Tensor;
  nll : Tensor -> Tensor -> Scalar;
  autograd : gmap string Tensor -> gmap string Tensor
             -> loss_tensor Tensor Scalar -> gmap string Tensor;
  adam_update : Adam Tensor -> gmap string Tensor -> gmap string Tensor
                -> Adam Tensor * gmap string Tensor
}.

Section Torch.
Context (k : kernels).

(** [ImageFolder] scans the class folders below [root]. *)
Definition image_folder (root : string) (t : list transform) : Ext world ImageFolder :=
  fun w =>
    match find_images k (fs w) root with
    | Some (cs, ss) =>
        (Returned {| classes := cs; samples := ss; transforms := t |}, w)
    | None =>
        (Raised (Exception "FileNotFoundError"
                   ("Couldn't find any class folder in " +:+ root +:+ ".")), w)
    end.

(** [DataLoader] rejects a batch size of zero. *)
Definition data_loader (d : ImageFolder) (bs : nat) (sh dl : bool) : Ext world DataLoader :=
  fun w =>
    match bs with
    | 0 => (Raised (Exception "ValueError"
                      "batch_size should be a positive integer value"), w)
    | S _ => (Returned {| dataset := d; batch_size := bs; shuffle := sh; drop_last := dl |}, w)
    end.

(** The batches of one pass over the loader, from the random state [n]. *)
Definition epoch_batches (files : gmap string file) (n : nat) (l : DataLoader)
  : list (batch Tensor) :=
  let d := dataset l in
  let order := if shuffle l then shuffled (rand k) n (samples d) else samples d in
  map (collate k files (transforms d))
      (chunks (length order) (batch_size l) (drop_last l) order).

(** [torch.load] returns the object pickled in the file. *)
Definition torch_load (path : string) (weights_only : option bool)
  : Ext world (pickled Tensor Scalar) :=
  fun w =>
    match fs w !! path with
    | Some (Pickle obj) => (Returned obj, w)
    | Some _ => (Raised (Exception "UnpicklingError" path), w)
    | None => (Raised (Exception "FileNotFoundError" path), w)
    end.

(** [load_state_dict] loads strictly: the names and the shapes must be
    those of the model, and then every tensor of the model is the loaded
    one; the attributes of the layers stay. *)
Definition load_state_dict (m : ResNet Tensor) (obj : pickled Tensor Scalar)
  : Ext world (ResNet Tensor) :=
  fun w =>
    match obj with
    | StateDict sd =>
        if bool_decide (tshape k <$> sd = tshape k <$> params m) then
          (Returned {| params := sd;
                       fc_in_features := fc_in_features m;
                       fc_out_features := fc_out_features m;
                       grads := grads m;
                       device := Objects.device m |}, w)
        else (Raised (Exception "RuntimeError"
                        "Error(s) in loading state_dict for ResNet"), w)
    | Dict _ => (Raised (Exception "RuntimeError"
                           "Error(s) in loading state_dict for ResNet"), w)
    end.

(** [nn.Linear] draws its parameters from the random state. *)
Definition linear (i o : nat) : Ext world (Linear Tensor) :=
  fun w =>
    let wb := linear_init k i o (seed w) in
    (Returned {| in_features := i; out_features := o; weight := wb.1; bias := wb.2 |},
     with_seed w (S (seed w))).

(** [model.to] moves the tensors; their values stay. *)
Definition model_to (m : ResNet Tensor) (dev : string) : Ext world (ResNet Tensor) :=
  fun w =>
    (Returned {| params := params m;
                 fc_in_features := fc_in_features m;
                 fc_out_features := fc_out_features m;
                 grads := grads m;
                 device := dev |}, w).

(** [optim.Adam] over all parameters of the model, with no history. *)
Definition adam (m : ResNet Tensor) (rate : value) : Ext world (Adam Tensor) :=
  fun w =>
    (Returned {| param_names := elements (dom (params m)); lr := rate;
                 moments := (∅, ∅); steps := 0 |}, w).

(** The model with other tensors and gradients. *)
Definition with_params (m : ResNet Tensor) (ps gs : gmap string Tensor) : ResNet Tensor :=
  {| params := ps;
     fc_in_features := fc_in_features m;
     fc_out_features := fc_out_features m;
     grads := gs;
     device := Objects.device m |}.

(** The reference [torch]. One pass over the loader consumes one random
    number per sample. Only loading a file, scanning the folders and
    strict loading can raise. *)
Definition torch_ref : torch.api world Tensor Scalar := {|
  torch.Compose := fun t w => (Returned t, w);
  torch.ImageFolder := image_folder;
  torch.DataLoader := data_loader;
  torch.resnet18 := fun w => (Returned (resnet18_init k (seed w)), with_seed w (S (seed w)));
  torch.load := torch_load;
  torch.load_state_dict := load_state_dict;
  torch.Linear := linear;
  torch.cuda_is_available := fun w => (Returned (cuda w), w);
  torch.mps_is_available := fun w => (Returned (mps w), w);
  torch.model_to := model_to;
  torch.tensor_to := fun t _ w => (Returned t, w);
  torch.CrossEntropyLoss := fun w => (Returned tt, w);
  torch.cross_entropy := fun o l w =>
    (Returned {| scalar := nll k o l; of_outputs := o; of_labels := l |}, w);
  torch.Adam := adam;
  torch.tqdm := fun l d w => (Returned {| iterable := l; desc := d |}, w);
  torch.iterate := fun bar w =>
    (Returned (epoch_batches (fs w) (seed w) (iterable bar)),
     with_seed w (seed w + length (samples (dataset (iterable bar)))));
  torch.set_postfix := fun _ _ w => (Returned tt, w);
  torch.zero_grad := fun _ m w => (Returned (with_params m (params m) ∅), w);
  torch.forward := fun m x w =>
    (Returned (net k (params m) x, with_params m (bn_update k (params m) x) (grads m)), w);
  torch.backward := fun l m w =>
    (Returned (with_params m (params m) (autograd k (params m) (grads m) l)), w);
  torch.step := fun o m w =>
    let r := adam_update k o (params m) (grads m) in
    (Returned (r.1, with_params m r.2 (grads m)), w);
  torch.item := fun l w => (Returned (scalar l), w)
|}.

(** The calls of a setup that completes, in order. *)
Definition setup_calls (w : world) : list event :=
  [ Done "import"; Done "import"; Done "import"; Done "import"; Done "import";
    Done "import"; Done "transforms.Compose"; Done "datasets.ImageFolder";
    Done "DataLoader"; Done "models.resnet18"; Done "torch.load";
    Done "model.load_state_dict"; Done "nn.Linear"; Done "torch.cuda.is_available" ]
  ++ (if cuda w then [] else [Done "torch.backends.mps.is_available"])
  ++ [ Done "model.to"; Done "nn.CrossEntropyLoss"; Done "optim.Adam"; Done "print" ].

(** The device the cell selects (lines 184-190). *)
Definition selected_device (w : world) : string :=
  if cuda w then "cuda" else if mps w then "mps" else "cpu".

(** What the setup of the fine-tuning cell builds from the classes [cs]
    and samples [ss] of the dataset, the loaded weights [sd], and the
    world [w] it starts in: the model is a ResNet-18 holding the loaded
    tensors, with a fresh head of [length cs] outputs. *)
Definition fresh_head (w : world) (cs : list string) : Linear Tensor :=
  let i := fc_in_features (resnet18_init k (seed w)) in
  let wb := linear_init k i (length cs) (S (seed w)) in
  {| in_features := i; out_features := length cs; weight := wb.1; bias := wb.2 |}.

Definition fine_tuned_model (w : world) (cs : list string) (sd : gmap string Tensor)
  : ResNet Tensor :=
  let m0 := resnet18_init k (seed w) in
  {| params := <["fc.bias" := bias (fresh_head w cs)]>
                 (<["fc.weight" := weight (fresh_head w cs)]> sd);
     fc_in_features := fc_in_features m0;
     fc_out_features := length cs;
     grads := delete "fc.bias" (delete "fc.weight" (grads m0));
     device := selected_device w |}.

(** One pass of the body of the inner loop on the model and the
    optimizer, and the loss it computes. *)
Definition batch_loss (m : ResNet Tensor) (b : batch Tensor) : loss_tensor Tensor Scalar :=
  let o := net k (params m) (inputs b) in
  {| scalar := nll k o (labels b); of_outputs := o; of_labels := labels b |}.

Definition train_step (mo : ResNet Tensor * Adam Tensor) (b : batch Tensor)
  : ResNet Tensor * Adam Tensor :=
  let m := mo.1 in
  let ps := bn_update k (params m) (inputs b) in
  let gs := autograd k ps ∅ (batch_loss m b) in
  let r := adam_update k mo.2 ps gs in
  (with_params m r.2 gs, r.1).

(** The names of the loop after one pass of the body of the inner loop. *)
Definition step_vars (v : quick_start.loop_vars Tensor Scalar) (b : batch Tensor)
  : quick_start.loop_vars Tensor Scalar :=
  let mo := train_step (quick_start.cur_model v, quick_start.cur_optimizer v) b in
  {| quick_start.cur_model := mo.1;
     quick_start.cur_optimizer := mo.2;
     quick_start.running_loss := quick_start.running_loss v;
     quick_start.loss := Some (batch_loss (quick_start.cur_model v) b) |}.

(** The calls of one pass of the body of the inner loop, in order. *)
Definition batch_calls : list event :=
  [ Done "optimizer.zero_grad"; Done "inputs.to"; Done "model"; Done "labels.to";
    Done "criterion"; Done "loss.backward"; Done "optimizer.step"; Done "loss.item";
    Done "progress_bar.set_postfix" ].

(** Line 198. *)
Definition reset_running_loss (v : quick_start.loop_vars Tensor Scalar)
  : quick_start.loop_vars Tensor Scalar :=
  {| quick_start.cur_model := quick_start.cur_model v;
     quick_start.cur_optimizer := quick_start.cur_optimizer v;
     quick_start.running_loss := Some (VFloat 0 0);
     quick_start.loss := quick_start.loss v |}.

End Torch.

(** *** lightly_train *)

(** What the library computes is kept abstract:
    - [train_failure], [embed_failure]: the failure a call ends in, if any
      (invalid model identifier, unreadable data path, out of memory);
    - [saved]: epoch and step of the intermediate checkpoints of a run;
    - [stamp]: the two numbers in the name of the event log;
    - [artifact kw fs name]: the content of the artifact [name] of a run;
    - [dim], [encode]: the embedding dimension and the feature vector of
      an image under a checkpoint. *)
Record pretraining := {
  train_failure : kwargs -> gmap string file -> option exn;
  embed_failure : kwargs -> gmap string file -> option exn;
  saved : kwargs -> list (nat * nat);
  stamp : kwargs -> nat * nat;
  artifact : kwargs -> gmap string file -> string -> file;
  dim : nat;
  encode : file -> Image -> vec Scalar dim
}.

Section Lightly.
Context (p : pretraining).

(** Modelled from the spec: the files of the experiment output directory
    (section 3 of the specification and the layout documented in
    quick_start.ipynb, lines 114-124), relative to the directory: the
    intermediate checkpoints, the last checkpoint, the event log, the
    exported model, the metrics and the training log. *)
Definition run_files (kw : kwargs) : list string :=
  map (fun es => "checkpoints/epoch=" +:+ pretty es.1 +:+ "-step=" +:+ pretty es.2
                 +:+ ".ckpt") (saved p kw)
  ++ [ "checkpoints/last.ckpt";
       "events.out.tfevents." +:+ pretty (stamp p kw).1 +:+ "." +:+ pretty (stamp p kw).2;
       "exported_models/exported_last.pt";
       "metrics.jsonl";
       "train.log" ].



Definition write_files (dir : string) (names : list string) (content : string -> file)
    (f : gmap string file) : gmap string file :=
  foldr (fun n acc => <[dir +:+ "/" +:+ n := content n]> acc) f names.


(** The files that are not below [dir]. *)
Definition outside (dir : string) (f : gmap string file) : gmap string file :=
  filter (fun kv => under dir kv.1 = false) f.

(** Modelled from the spec: [lightly_train.train] is not among the
    sources. Section 4.1: it takes an output path, a data path and a
    model identifier; a failure is raised to the caller; on return the
    artifacts of the run exist below the output path. Section 3: the
    experiment output directory is created by the call, and once the
    training is complete it contains the files of the run
    (quick_start.ipynb, lines 110-124): what was below the output path
    before is not in the directory the call creates. A call that refuses
    an output directory that exists is a [train_failure]. *)
Definition train (kw : kwargs) : Ext world unit :=
  fun w =>
    match kwarg "out" kw, kwarg "data" kw, kwarg "model" kw with
    | Some (VStr out), Some (VStr _), Some (VStr _) =>
        match train_failure p kw (fs w) with
        | Some e => (Raised e, w)
        | None =>
            (Returned tt,
             with_fs w (write_files out (run_files kw) (artifact p kw (fs w))
                          (outside out (fs w))))
        end
    | _, _, _ => (Raised (Exception "TypeError" "train: out, data and model"), w)
    end.

(** The image files below [data], with their paths. *)
Definition images_below (f : gmap string file) (data : string) : list (string * Image) :=
  omap (fun kv => match kv.2 with
                  | ImageFile img => if under data kv.1 then Some (kv.1, img) else None
                  | _ => None
                  end) (map_to_list f).

(** Modelled from the spec: the embeddings artifact of section 3, a
    mapping with the two fields [filenames] and [embeddings]. *)
Definition embeddings_artifact (ckpt : file) (images : list (string * Image))
  : gmap string (field Scalar) :=
  <["filenames" := Names images.*1]>
    (<["embeddings" := Array {| embedding_dim := dim p;
                                rows := map (encode p ckpt) images.*2 |}]> ∅).

(** Modelled from the spec: [lightly_train.embed] is not among the
    sources. Section 4.2: it takes an output file path, a checkpoint
    path and a data path, computes a feature vector per image and
    persists the embeddings artifact. *)
Definition embed (kw : kwargs) : Ext world unit :=
  fun w =>
    match kwarg "out" kw, kwarg "checkpoint" kw, kwarg "data" kw with
    | Some (VStr out), Some (VStr ckpt), Some (VStr data) =>
        match fs w !! ckpt with
        | None => (Raised (Exception "FileNotFoundError" ckpt), w)
        | Some c =>
            match embed_failure p kw (fs w) with
            | Some e => (Raised e, w)
            | None =>
                (Returned tt,
                 with_fs w (<[out := Pickle (Dict (embeddings_artifact c
                                                     (images_below (fs w) data)))]> (fs w)))
            end
        end
    | _, _, _ => (Raised (Exception "TypeError" "embed: out, checkpoint and data"), w)
    end.

(** The files below [d] are the same in both worlds. *)
Definition unchanged_below (d : string) (w w' : world) : Prop :=
  forall path, under d path = true -> fs w' !! path = fs w !! path.

Definition lightly_spec : lightly_train.api world := {|
  lightly_train.train := train;
  lightly_train.embed := embed
|}.

End Lightly.





End Model.

Arguments file Image Tensor Scalar : clear implicits.
Arguments world Image Tensor Scalar : clear implicits.
Arguments kernels Image Tensor Scalar : clear implicits.
Arguments pretraining Image Tensor Scalar : clear implicits.

End Reference.

(** ** The calls into lightly_train *)

(** Libraries that do nothing and return at once, over any world; they
    let a notebook run to its end. Tensors and scalars are [unit]. *)
Module Stub.
Import Py Exec Objects.
Section Stubs.
Context {W : Type}.

Definition returns {A} (a : A) : Ext W A := fun w => (Returned a, w).

Definition python : python.api W unit := {|
  python.import := fun _ => returns tt;
  python.print := fun _ => returns tt;
  python.format_4f := fun _ => "0.0000";
  python.sh := fun _ => returns tt
|}.

Definition resnet : ResNet unit :=
  {| params := ∅; fc_in_features := 512; fc_out_features := 1000; grads := ∅;
     device := "cpu" |}.

Definition optimizer : Adam unit :=
  {| param_names := []; lr := VFloat 1 (-3); moments := (∅, ∅); steps := 0 |}.

Definition torch_with (load : string -> option bool -> Ext W (pickled unit unit))
  : torch.api W unit unit := {|
  torch.Compose := returns;
  torch.ImageFolder := fun _ t => returns {| classes := []; samples := []; transforms := t |};
  torch.DataLoader := fun d bs sh dl =>
    returns {| dataset := d; batch_size := bs; shuffle := sh; drop_last := dl |};
  torch.resnet18 := returns resnet;
  torch.load := load;
  torch.load_state_dict := fun m _ => returns m;
  torch.Linear := fun i o =>
    returns {| in_features := i; out_features := o; weight := tt; bias := tt |};
  torch.cuda_is_available := returns false;
  torch.mps_is_available := returns false;
  torch.model_to := fun m _ => returns m;
  torch.tensor_to := fun t _ => returns t;
  torch.CrossEntropyLoss := returns tt;
  torch.cross_entropy := fun o l =>
    returns {| scalar := tt; of_outputs := o; of_labels := l |};
  torch.Adam := fun _ _ => returns optimizer;
  torch.tqdm := fun l d => returns {| iterable := l; desc := d |};
  torch.iterate := fun _ => returns [ {| inputs := tt; labels := tt |} ];
  torch.set_postfix := fun _ _ => returns tt;
  torch.zero_grad := fun _ m => returns m;
  torch.forward := fun m x => returns (x, m);
  torch.backward := fun _ m => returns m;
  torch.step := fun o m => returns (o, m);
  torch.item := fun _ => returns tt
|}.

Definition torch : torch.api W unit unit :=
  torch_with (fun _ _ => returns (StateDict ∅)).

Definition ultralytics_with (datasets_dir : string) (YOLO : string -> Ext W unit)
  : ultralytics.api W unit := {|
  ultralytics.check_det_dataset := fun _ => returns tt;
  ultralytics.settings := fun _ => returns datasets_dir;
  ultralytics.YOLO := YOLO;
  ultralytics.train := fun _ _ => returns tt
|}.

Definition ultralytics (datasets_dir : string) : ultralytics.api W unit :=
  ultralytics_with datasets_dir (fun _ => returns tt).

Definition roboflow (location : string) : roboflow.api W unit := {|
  roboflow.Roboflow := fun _ => returns tt;
  roboflow.workspace := fun _ _ => returns tt;
  roboflow.project := fun _ _ => returns tt;
  roboflow.version := fun _ _ => returns tt;
  roboflow.download := fun _ _ => returns tt;
  roboflow.location := fun _ => location
|}.

Definition rfdetr_with (RFDETRBase : kwargs -> Ext W unit) : rfdetr.api W unit := {|
  rfdetr.RFDETRBase := RFDETRBase;
  rfdetr.train := fun _ _ => returns tt
|}.

Definition rfdetr : rfdetr.api W unit := rfdetr_with (fun _ => returns tt).

Definition flash_attn : flash_attn.api := {| flash_attn.version := "2" |}.

(** A [lightly_train] whose training call rejects the model identifier. *)
Definition rejecting : lightly_train.api W := {|
  lightly_train.train := fun _ w => (Raised (Exception "ValueError" "unknown model"), w);
  lightly_train.embed := fun _ => returns tt
|}.

End Stubs.
End Stub.

Module Invocations.
Import Py Exec.

Inductive entry := Train | Embed.

#[global] Instance entry_eq_dec : EqDecision entry.
Proof. solve_decision. Defined.

(** A [lightly_train] that records what it is called with. *)
Definition recorder : lightly_train.api (list (entry * kwargs)) := {|
  lightly_train.train := fun kw w => (Returned tt, w ++ [(Train, kw)]);
  lightly_train.embed := fun kw w => (Returned tt, w ++ [(Embed, kw)])
|}.

(** The calls the three notebooks record, run to their ends. *)
Definition recorded (datasets_dir location : string) : list (entry * kwargs) :=
  world (run (quick_start.notebook Stub.python recorder Stub.torch) []).2
  ++ world (run (yolov12.notebook Stub.python recorder
                   (Stub.ultralytics datasets_dir) Stub.flash_attn) []).2
  ++ world (run (rfdetr_nb.notebook Stub.python recorder
                   (Stub.roboflow location) Stub.rfdetr) []).2.

(** The named options of section 6. *)
Definition option_names : list string :=
  ["out"; "data"; "model"; "epochs"; "batch_size"; "overwrite"; "checkpoint"].

Definition uses_named_options (kw : kwargs) : bool :=
  forallb (fun k => bool_decide (k ∈ option_names)) (keys kw).

Definition supplies (k : string) (ty : value -> bool) (kw : kwargs) : bool :=
  match kwarg k kw with
  | Some v => ty v
  | None => false
  end.

(** Output path, data path, model identifier, epoch count, batch size. *)
Definition supplies_run_inputs (kw : kwargs) : bool :=
  supplies "out" is_str kw && supplies "data" is_str kw && supplies "model" is_str kw
  && supplies "epochs" is_positive_int kw && supplies "batch_size" is_positive_int kw.

(** The inputs of section 4.1: the above and the overwrite flag. *)
Definition supplies_training_inputs (kw : kwargs) : bool :=
  supplies_run_inputs kw && supplies "overwrite" is_bool kw.

Definition overwrite_flag (kw : kwargs) : option value := kwarg "overwrite" kw.





End Invocations.

(** ** Small concrete worlds *)

(** Images, tensors and scalars are numbers here; the kernels are the
    simplest functions of the right type. *)
Module Examples.
Import Py Exec Objects Reference.

Definition pretrain0 : pretraining nat nat nat := {|
  train_failure := fun _ _ => None;
  embed_failure := fun _ _ => None;
  saved := fun _ => [(9, 40)];
  stamp := fun _ => (123, 0);
  artifact := fun _ _ n => Other n;
  dim := 2;
  encode := fun _ img => [# img; img + 1]
|}.

(** A ResNet with one convolution and the head. *)
Definition weights0 (conv w b : nat) : gmap string nat :=
  <["conv1.weight" := conv]> (<["fc.weight" := w]> (<["fc.bias" := b]> ∅)).

Definition kernels0 : kernels nat nat nat := {|
  find_images := fun f root =>
    Some (["shirt"; "shoe"],
          omap (fun kv => if under root kv.1 then Some (kv.1, 0) else None) (map_to_list f));
  rand := fun n => n;
  collate := fun _ _ items => {| inputs := length items; labels := sum_list items.*2 |};
  resnet18_init := fun n =>
    {| params := weights0 n n n; fc_in_features := 512; fc_out_features := 1000;
       grads := ∅; device := "cpu" |};
  linear_init := fun i o n => (i + o + n, n);
  tshape := fun _ => [];
  net := fun ps x => x + default 0 (ps !! "fc.bias");
  bn_update := fun ps _ => ps;
  nll := fun o l => o + l;
  autograd := fun ps _ _ => ps;
  adam_update := fun o ps gs => (o, (fun x => x + 1) <$> ps)
|}.

Definition images0 (n : nat) : gmap string (file nat nat nat) :=
  list_to_map (map (fun i => ("my_data_dir/shirt/" +:+ pretty i +:+ ".jpg", ImageFile i))
                   (seq 0 n)).

(** A kernel with [n] images in [my_data_dir] and an exported model. *)
Definition world0 (n : nat) : world nat nat nat := {|
  fs := <[quick_start.exported_model := Pickle (StateDict (weights0 7 8 9))]> (images0 n);
  stdout := [];
  seed := 0;
  cuda := false;
  mps := false
|}.

Definition python0 : python.api (world nat nat nat) nat :=
  python_ref (fun _ f => f) (fun x => pretty x).

Definition start (n : nat) : state (world nat nat nat) :=
  {| Exec.world := world0 n; trace := [] |}.

(** Globals of a fine-tuning cell over 33 samples, labelled 0 to 32. *)
Definition globals33 : quick_start.globals nat :=
  let d := {| classes := ["shirt"];
              samples := map (fun i => ("my_data_dir/shirt/" +:+ pretty i +:+ ".jpg", i))
                             (seq 0 33);
              transforms := quick_start.transform |} in
  {| quick_start.dataset := d;
     quick_start.dataloader :=
       {| dataset := d; batch_size := 16; shuffle := true; drop_last := true |};
     quick_start.model := resnet18_init kernels0 0;
     quick_start.device := "cpu";
     quick_start.optimizer :=
       {| param_names := ["conv1.weight"; "fc.bias"; "fc.weight"]; lr := VFloat 1 (-3);
          moments := (∅, ∅); steps := 0 |} |}.

Definition vars0 : quick_start.loop_vars nat nat :=
  {| quick_start.cur_model := quick_start.model globals33;
     quick_start.cur_optimizer := quick_start.optimizer globals33;
     quick_start.running_loss := None;
     quick_start.loss := None |}.

(** The same after a pretraining run. *)
Definition trained (n : nat) : state (world nat nat nat) :=
  {| Exec.world := (train pretrain0 quick_start.train_kwargs (world0 n)).2; trace := [] |}.








End Examples.

(** ** The order in which a notebook calls the libraries *)

Module CallOrder.
Import Py Exec.

(** The library function an event is about. *)
Definition callee (ev : event) : string :=
  match ev with
  | Done c => c
  | Failed c _ => c
  end.

Definition returned_from (c : string) (ev : event) : bool :=
  match ev with
  | Done c' => String.eqb c c'
  | Failed _ _ => false
  end.

(** How many calls to [c] returned. *)
Definition calls_to (c : string) (evs : list event) : nat :=
  length (List.filter (returned_from c) evs).

(** The calls of one epoch of the fine-tuning loop that handles [n]
    batches (quick_start.ipynb, lines 198-207). *)
Definition epoch_calls (n : nat) : list event :=
  [Done "tqdm.tqdm"; Done "iter"]
  ++ concat (replicate n Reference.batch_calls)
  ++ [Done "loss.item"; Done "print"].

(** The calls written in the cells of yolov12.ipynb, in order. *)
Definition yolov12_calls : list string :=
  [ "!pip"; "!pip"; "!pip";
    "import"; "print";
    "import"; "check_det_dataset"; "import"; "settings.__getitem__";
    "import"; "settings.__getitem__"; "lightly_train.train";
    "import"; "YOLO"; "model.train" ].

(** The calls written in the cells of rfdetr.ipynb, in order. *)
Definition rfdetr_calls : list string :=
  [ "!pip";
    "import"; "Roboflow";
    "rf.workspace"; "workspace.project"; "project.version"; "version.download";
    "rf.workspace"; "workspace.project"; "project.version"; "version.download";
    "import"; "lightly_train.train";
    "import"; "RFDETRBase"; "model.train" ].

Section Order.
Context {W : Type}.

(** The code calls the functions [names] in this order and stops at the
    first call that raises: the callees of what it appends to the trace
    are a prefix of [names], all of [names] when it returns, and only the
    last call can have failed. *)
Definition follows {A} (names : list string) (m : M W A) : Prop :=
  forall s, exists evs,
    trace (m s).2 = trace s ++ evs /\
    match (m s).1 with
    | Returned _ => evs = map Done names
    | Raised e =>
        exists done c rest,
          names = done ++ c :: rest /\ evs = map Done done ++ [Failed c e]
    end.

(** What a piece of code appends to the trace when it returns. *)
Definition emits {A} (evs : list event) (m : M W A) : Prop :=
  forall s a s', m s = (Returned a, s') -> trace s' = trace s ++ evs.

End Order.
End CallOrder.

(** ** Exceptions of external calls propagate *)

Module Propagation.
Import Py Exec.

Section Laws.
Context {W : Type}.

Lemma clean_nil : clean [].
Proof. intros n e H. by apply not_elem_of_nil in H. Qed.

Lemma clean_app (l1 l2 : list event) : clean l1 -> clean l2 -> clean (l1 ++ l2).
Proof.
  intros H1 H2 n e H. apply elem_of_app in H as [H|H]; [by eapply H1|by eapply H2].
Qed.

Lemma clean_done (c : string) : clean [Done c].
Proof. intros n e H. apply list_elem_of_singleton in H. discriminate. Qed.

Lemma propagates_ret {A} (a : A) : propagates (W:=W) (ret a).
Proof.
  intros s. exists []. simpl. split; [by rewrite app_nil_r|].
  intros n e H. by apply not_elem_of_nil in H.
Qed.

Lemma propagates_raise {A} (e : exn) : propagates (W:=W) (raise (A:=A) e).
Proof.
  intros s. exists []. simpl. split; [by rewrite app_nil_r|].
  intros n e' H. by apply not_elem_of_nil in H.
Qed.

Lemma propagates_call {A} (c : string) (f : Ext W A) : propagates (call c f).
Proof.
  intros s. unfold call. destruct (f (world s)) as [r w] eqn:E.
  eexists. simpl. split; [reflexivity|].
  intros n e H. apply list_elem_of_singleton in H.
  destruct r as [a|e0]; [discriminate|]. injection H as -> ->.
  split; [reflexivity|]. exists []. split; [reflexivity|apply clean_nil].
Qed.

(** A run that returned made no failed call. *)
Lemma propagates_returned {A} (m : M W A) (s : state W) (evs : list event) :
  (forall n e, Failed n e ∈ evs -> (m s).1 = Raised e /\
     exists pre, evs = pre ++ [Failed n e] /\ clean pre) ->
  (exists a, (m s).1 = Returned a) -> clean evs.
Proof.
  intros H [a Ha] n e Hin. destruct (H n e Hin) as [Hr _]. congruence.
Qed.

Lemma propagates_bind {A B} (m : M W A) (k : A -> M W B) :
  propagates m -> (forall a, propagates (k a)) -> propagates (bind m k).
Proof.
  intros Hm Hk s. destruct (Hm s) as (evs1 & Ht1 & Hf1).
  unfold bind. destruct (m s) as [[a|e0] s1] eqn:E; simpl in *.
  - destruct (Hk a s1) as (evs2 & Ht2 & Hf2).
    exists (evs1 ++ evs2). split; [by rewrite Ht2, Ht1, app_assoc|].
    assert (clean evs1) as Hc.
    { intros n e Hin. by destruct (Hf1 n e Hin) as [? _]. }
    intros n e Hin. apply elem_of_app in Hin as [Hin|Hin]; [by apply Hc in Hin|].
    destruct (Hf2 n e Hin) as (Hr & pre & -> & Hpre).
    split; [exact Hr|]. exists (evs1 ++ pre).
    split; [by rewrite app_assoc|by apply clean_app].
  - exists evs1. split; [exact Ht1|].
    intros n e Hin. destruct (Hf1 n e Hin) as [Hr Hpre].
    split; [congruence|exact Hpre].
Qed.

Lemma propagates_for_fold {X S} (xs : list X) (body : X -> S -> M W S) (st : S) :
  (forall x v, propagates (body x v)) -> propagates (for_fold xs body st).
Proof.
  intros Hb. revert st. induction xs as [|x xs IH]; intros st; simpl.
  - apply propagates_ret.
  - apply propagates_bind; [apply Hb|exact IH].
Qed.

(** From the first state of a run: a failed call is the last event of
    the trace and its exception is the outcome. *)
Lemma propagates_run {A} (m : M W A) (w : W) (n : string) (e : exn) :
  propagates m ->
  Failed n e ∈ trace (run m w).2 ->
  (run m w).1 = Raised e /\ last (trace (run m w).2) = Some (Failed n e).
Proof.
  intros Hm Hin. unfold run in *.
  destruct (Hm {| world := w; trace := [] |}) as (evs & Ht & Hf).
  simpl in Ht. rewrite Ht in Hin |- *.
  destruct (Hf n e Hin) as (Hr & pre & -> & _).
  split; [exact Hr|apply last_snoc].
Qed.

(** A handler is what breaks the property: the call fails and the cell
    returns. *)
Lemma try_except_swallows (e : exn) (w : W) :
  let m := try_except (call "f" (fun w => (Raised (A:=unit) e, w))) (fun _ => ret tt) in
  Failed "f" e ∈ trace (run m w).2 /\ (run m w).1 = Returned tt.
Proof. simpl. split; [apply list_elem_of_singleton; reflexivity|reflexivity]. Qed.

End Laws.

(** Cells are built from calls, sequencing, loops and conditionals. *)
Ltac propagate :=
  repeat first
    [ apply propagates_ret
    | apply propagates_raise
    | apply propagates_call
    | apply propagates_for_fold; intros
    | apply propagates_bind; [|intros]
    | match goal with
      | |- propagates (if ?b then _ else _) => destruct b
      | |- propagates (match ?x with _ => _ end) => destruct x
      end ].

End Propagation.

(** ** Properties of the workflow *)

Module WorkflowFacts.
Import Workflow.

Lemma prefix_first_char (c d : Ascii.ascii) (p q s : string) :
  String.prefix (String c p) s = true ->
  String.prefix (String d q) s = true -> c = d.
Proof.
  destruct s as [|x s]; simpl; [discriminate|].
  destruct (Ascii.ascii_dec c x), (Ascii.ascii_dec d x); congruence.
Qed.

(** No file lies below both [docker/] and [.github/]. *)
Lemma not_under_both (file : string) :
  picomatch (Not (Under "docker")) file || picomatch (Not (Under ".github")) file = true.
Proof.
  cbn [picomatch].
  change ("docker" +:+ "/") with "docker/".
  change (".github" +:+ "/") with ".github/".
  destruct (String.prefix "docker/" file) eqn:Hd; [|reflexivity].
  destruct (String.prefix ".github/" file) eqn:Hg; [|reflexivity].
  pose proof (prefix_first_char _ _ _ _ _ Hd Hg) as H. discriminate H.
Qed.

(** With the default quantifier every file belongs to [run-tests]. *)
Lemma run_tests_matches_every_file (file : string) :
  file_matches QSome (rules "run-tests" (filters filter_step)) file = true.
Proof.
  change (rules "run-tests" (filters filter_step))
    with [Not (Under "docker"); Not (Under ".github"); Literal workflow_file].
  cbn [file_matches existsb].
  rewrite orb_assoc, not_under_both. reflexivity.
Qed.

Lemma matching_files_all (changed : list string) :
  matching_files filter_step "run-tests" changed = changed.
Proof.
  unfold matching_files. induction changed as [|f fs IH]; [reflexivity|].
  rewrite filter_cons. cbn [predicate_quantifier filter_step default].
  rewrite decide_True by apply run_tests_matches_every_file.
  f_equal. exact IH.
Qed.

(** The filter output is ['true'] exactly when some file changed. *)
Lemma filter_output_nonempty (changed : list string) :
  filter_output filter_step "run-tests" changed = "true" <-> changed <> [].
Proof.
  unfold filter_output. rewrite matching_files_all.
  destruct changed; split; intros H; try done.
Qed.

(** With the quantifier [every] no file would belong to [run-tests]: the
    only file the third pattern accepts lies below [.github/]. *)
Lemma every_quantifier_matches_no_file (file : string) :
  file_matches QEvery (rules "run-tests" (filters filter_step)) file = false.
Proof.
  change (rules "run-tests" (filters filter_step))
    with [Not (Under "docker"); Not (Under ".github"); Literal workflow_file].
  cbn [file_matches forallb picomatch].
  destruct (String.eqb_spec workflow_file file) as [<-|_];
    [reflexivity|by rewrite !andb_false_r].
Qed.

Lemma run_steps_success (exit : step -> Z) (ss : list step) :
  run_steps exit ss = Success <-> Forall (fun s => exit s = 0%Z) ss.
Proof.
  induction ss as [|s ss IH]; simpl.
  - split; [constructor|reflexivity].
  - destruct (Z.eqb_spec (exit s) 0) as [E|E].
    + rewrite IH. split; [by constructor|by inversion 1].
    + split; [discriminate|]. inversion 1; contradiction.
Qed.

(** The job is gated on the output string alone. *)
Lemma executes_iff_output_true (exit : step -> Z) (changed : list string) :
  test_documentation_executes exit changed = true <->
  run_tests_output exit changed = "true".
Proof.
  unfold test_documentation_executes, run_tests_output.
  destruct (run_steps exit detect_code_changes_steps).
  - apply String.eqb_eq.
  - split; discriminate.
  - split; discriminate.
Qed.

(** When the job executes, it succeeds exactly when each of its five
    steps exits with status zero, and fails otherwise. *)
Lemma test_documentation_pass_fail (exit : step -> Z) (changed : list string) :
  test_documentation_executes exit changed = true ->
  (test_documentation exit changed = Success <->
     Forall (fun s => exit s = 0%Z) test_documentation_steps) /\
  (test_documentation exit changed = Success \/
   test_documentation exit changed = Failure).
Proof.
  intros H. unfold test_documentation. rewrite H. split.
  - apply run_steps_success.
  - generalize test_documentation_steps. intros ss.
    induction ss as [|s ss IH]; simpl; [by left|].
    destruct (Z.eqb (exit s) 0); [exact IH|by right].
Qed.

(** C2. On a change set that touches only [docker/Dockerfile] the job
    executes (the filter output is ['true'], because the file satisfies
    [!.github/**] and one satisfied pattern suffices), although no changed
    file is documentation-relevant in the specification's reading. *)
Theorem docker_only_change_runs_documentation_job :
  let changed := ["docker/Dockerfile"] in
  filter_output filter_step "run-tests" changed = "true" /\
  test_documentation_executes (fun _ => 0%Z) changed = true /\
  documentation_changed changed = false.
Proof. repeat split; reflexivity. Qed.

End WorkflowFacts.

(** ** Properties of the calls into lightly_train *)

Module InvocationFacts.
Import Py Exec Invocations.

(** The notebooks call [lightly_train] four times, with these arguments. *)
Lemma recorded_calls (datasets_dir location : string) :
  recorded datasets_dir location =
  [ (Train, quick_start.train_kwargs);
    (Embed, quick_start.embed_kwargs);
    (Train, yolov12.train_kwargs datasets_dir);
    (Train, rfdetr_nb.train_kwargs location) ].
Proof. reflexivity. Qed.

(** Not every training call gives the six inputs of section 4.1: the
    quick-start training call gives no [overwrite] flag. *)
Lemma quick_start_train_has_no_overwrite :
  ~ (forall datasets_dir location : string,
       Forall (fun c => c.1 = Train -> supplies_training_inputs c.2 = true)
              (recorded datasets_dir location)).
Proof.
  intros H. specialize (H "" ""). rewrite recorded_calls in H.
  apply Forall_cons in H as [H _]. specialize (H eq_refl). discriminate H.
Qed.

(** C3, amended. Every call of [lightly_train.train] and
    [lightly_train.embed] in the notebooks reaches the library with the
    keyword arguments written in the cell, all of them among [out],
    [data], [model], [epochs], [batch_size], [overwrite], [checkpoint];
    every training call gives an output path, a data path, a model
    identifier, a positive epoch count and a positive batch size; the
    YOLOv12 and RF-DETR training calls also give the boolean
    [overwrite=True], the quick-start training call gives no [overwrite]. *)
Theorem lightly_train_calls_use_named_options (datasets_dir location : string) :
  let calls := recorded datasets_dir location in
  calls = [ (Train, quick_start.train_kwargs);
            (Embed, quick_start.embed_kwargs);
            (Train, yolov12.train_kwargs datasets_dir);
            (Train, rfdetr_nb.train_kwargs location) ] /\
  Forall (fun c => uses_named_options c.2 = true) calls /\
  Forall (fun c => c.1 = Train -> supplies_run_inputs c.2 = true) calls /\
  Forall (fun c => forall v, overwrite_flag c.2 = Some v -> is_bool v = true) calls /\
  map (fun c => overwrite_flag c.2) (filter (fun c => c.1 = Train) calls) =
    [None; Some (VBool true); Some (VBool true)].
Proof.
  cbv zeta. rewrite recorded_calls. split; [|split; [|split; [|split]]].
  - reflexivity.
  - repeat constructor.
  - repeat (constructor;
              [cbn [fst snd]; intros H; try discriminate H; reflexivity|]).
    constructor.
  - repeat (constructor;
              [intros v; cbn; intros H; try discriminate H;
               injection H as <-; reflexivity|]).
    constructor.
  - reflexivity.
Qed.

End InvocationFacts.

(** ** No cell handles an exception *)

Module PropagationFacts.
Import Py Exec Propagation.

Section AnyLibrary.
Context {W Tensor Scalar Obj : Type}.
Context (py : python.api W Scalar) (lt : lightly_train.api W)
        (th : torch.api W Tensor Scalar) (ul : ultralytics.api W Obj)
        (fa : flash_attn.api) (rb : roboflow.api W Obj) (rd : rfdetr.api W Obj).

Lemma fine_tune_propagates : propagates (quick_start.fine_tune py th).
Proof.
  unfold quick_start.fine_tune, quick_start.fine_tune_setup,
    quick_start.select_device, quick_start.fine_tune_loop.
  propagate.
  unfold quick_start.epoch_body. propagate.
  unfold quick_start.name. propagate.
Qed.

Lemma load_embeddings_propagates : propagates (quick_start.load_embeddings py th).
Proof.
  unfold quick_start.load_embeddings, quick_start.getitem, quick_start.shape_of.
  propagate.
Qed.

Lemma quick_start_propagates : propagates (quick_start.notebook py lt th).
Proof.
  unfold quick_start.notebook.
  apply propagates_bind; [unfold quick_start.install; propagate|intros _].
  apply propagates_bind; [unfold quick_start.prepare_data; propagate|intros _].
  apply propagates_bind; [unfold quick_start.train; propagate|intros _].
  apply propagates_bind; [apply fine_tune_propagates|intros _].
  apply propagates_bind; [unfold quick_start.embed; propagate|intros _].
  apply load_embeddings_propagates.
Qed.

Lemma yolov12_propagates : propagates (yolov12.notebook py lt ul fa).
Proof.
  unfold yolov12.notebook, yolov12.install, yolov12.verify_flash_attn,
    yolov12.prepare_data, yolov12.train, yolov12.fine_tune.
  propagate.
Qed.

Lemma rfdetr_propagates : propagates (rfdetr_nb.notebook py lt rb rd).
Proof.
  unfold rfdetr_nb.notebook, rfdetr_nb.install, rfdetr_nb.connect,
    rfdetr_nb.download, rfdetr_nb.train, rfdetr_nb.fine_tune.
  propagate.
Qed.

(** C5. Whatever the external libraries do: when a call made by a
    notebook raises, the notebook raises that very exception, and the
    failed call is the last thing it did. *)
Theorem external_failures_propagate (nb : M W unit) (w : W) (n : string) (e : exn) :
  nb ∈ Repository.notebooks py lt th ul fa rb rd ->
  Failed n e ∈ trace (run nb w).2 ->
  (run nb w).1 = Raised e /\ last (trace (run nb w).2) = Some (Failed n e).
Proof.
  intros Hnb. apply propagates_run.
  unfold Repository.notebooks in Hnb.
  repeat (apply elem_of_cons in Hnb as [->|Hnb]);
    [apply quick_start_propagates|apply yolov12_propagates|apply rfdetr_propagates|].
  by apply not_elem_of_nil in Hnb.
Qed.

End AnyLibrary.

Lemma external_failures_propagate_witness :
  let nb := quick_start.notebook Stub.python Stub.rejecting Stub.torch in
  let e := Exception "ValueError" "unknown model" in
  Failed "lightly_train.train" e ∈ trace (run nb tt).2 /\
  (run nb tt).1 = Raised e /\
  last (trace (run nb tt).2) = Some (Failed "lightly_train.train" e).
Proof.
  cbv zeta.
  assert (Failed "lightly_train.train" (Exception "ValueError" "unknown model")
          ∈ trace (run (quick_start.notebook Stub.python Stub.rejecting Stub.torch) tt).2) as H.
  { apply list_elem_of_lookup. exists 4. reflexivity. }
  split; [exact H|].
  apply (external_failures_propagate (Obj:=unit) Stub.python Stub.rejecting Stub.torch
           (Stub.ultralytics "") Stub.flash_attn (Stub.roboflow "") Stub.rfdetr);
    [apply list_elem_of_here|exact H].
Defined.

End PropagationFacts.

(** ** Paths and directories *)

Module PathFacts.
Import Reference.

Lemma append_assoc (a b c : string) : (a +:+ b) +:+ c = a +:+ b +:+ c.
Proof.
  induction a as [|x a IH]; [reflexivity|].
  change (String x ((a +:+ b) +:+ c) = String x (a +:+ b +:+ c)). by rewrite IH.
Qed.



Lemma prefix_append (pre n : string) : String.prefix pre (pre +:+ n) = true.
Proof.
  induction pre as [|c pre IH]; [by destruct n|].
  change (String c pre +:+ n) with (String c (pre +:+ n)).
  cbn [String.prefix]. destruct (Ascii.ascii_dec c c); [exact IH|contradiction].
Qed.

(** A file of a directory is below it. *)
Lemma under_own_directory (o n : string) : under o (o +:+ "/" +:+ n) = true.
Proof. unfold under. rewrite <- append_assoc. apply prefix_append. Qed.



Section Files.
Context {Image Tensor Scalar : Type}.



Lemma outside_lookup_other (dir path : string) (f : gmap string (file Image Tensor Scalar)) :
  under dir path = false -> outside dir f !! path = f !! path.
Proof.
  intros Hu. unfold outside. destruct (f !! path) as [x|] eqn:Hf.
  - apply map_lookup_filter_Some_2; [exact Hf|exact Hu].
  - apply map_lookup_filter_None_2. by left.
Qed.

End Files.
End PathFacts.

(** ** The artifacts of a pretraining run *)

Module ArtifactFacts.
Import Py Exec Objects Reference Invocations PathFacts.

Section Runs.
Context {Image Tensor Scalar : Type}.
Context (p : pretraining Image Tensor Scalar).





Lemma write_files_other (dir : string) (names : list string)
    (content : string -> file Image Tensor Scalar)
    (f : gmap string (file Image Tensor Scalar)) (path : string) :
  (forall n, path <> dir +:+ "/" +:+ n) ->
  write_files dir names content f !! path = f !! path.
Proof.
  intros Hp. induction names as [|m names IH]; [reflexivity|].
  cbn [write_files foldr]. rewrite lookup_insert_ne; [exact IH|].
  intros E. exact (Hp m (eq_sym E)).
Qed.





End Runs.


End ArtifactFacts.

(** ** The embeddings artifact *)

Module EmbeddingFacts.
Import Py Exec Objects Reference.

Section Embed.
Context {Image Tensor Scalar : Type}.
Context (p : pretraining Image Tensor Scalar) (k : kernels Image Tensor Scalar)
        (sh_effect : string -> gmap string (file Image Tensor Scalar)
                     -> gmap string (file Image Tensor Scalar))
        (fmt : Scalar -> string).

(** An image listed below [data] is a file of the world, below [data]. *)
Lemma images_below_spec (f : gmap string (file Image Tensor Scalar)) (data name : string)
    (img : Image) :
  (name, img) ∈ images_below f data ->
  f !! name = Some (ImageFile img) /\ under data name = true.
Proof.
  unfold images_below. intros H.
  apply list_elem_of_omap in H as ([n x] & Hin & Hx).
  apply elem_of_map_to_list in Hin. cbn [fst snd] in Hx.
  destruct x as [i| |]; try discriminate Hx.
  destruct (under data n) eqn:Hu; [|discriminate Hx].
  injection Hx as -> ->. split; [exact Hin|exact Hu].
Qed.

(** The two fields of the artifact. *)
Lemma embeddings_artifact_fields (c : file Image Tensor Scalar)
    (images : list (string * Image)) :
  dom (embeddings_artifact p c images) = ({["filenames"; "embeddings"]} : gset string).
Proof. unfold embeddings_artifact. rewrite !dom_insert_L, dom_empty_L. set_solver. Qed.

(** The embedding cell with the reference libraries: what it needs to
    return and what it persists. *)
Lemma embed_returned (s s' : state (world Image Tensor Scalar)) :
  quick_start.embed (python_ref sh_effect fmt) (lightly_spec p) s = (Returned tt, s') ->
  exists c,
    fs (Exec.world s) !! "out/my_experiment/checkpoints/last.ckpt" = Some c /\
    Exec.world s' = with_fs (Exec.world s)
      (<["my_embeddings.pth" :=
           Pickle (Dict (embeddings_artifact p c
                           (images_below (fs (Exec.world s)) "my_data_dir")))]>
         (fs (Exec.world s))).
Proof.
  unfold quick_start.embed, bind, call. cbn.
  unfold embed. cbn.
  destruct (fs (Exec.world s) !! "out/my_experiment/checkpoints/last.ckpt") as [c|];
    [|intros H; inversion H].
  destruct (embed_failure p quick_start.embed_kwargs (fs (Exec.world s)));
    intros H; inversion H.
  exists c. split; reflexivity.
Qed.

(** C1. When the embedding cell completes, the file it wrote holds a
    mapping with exactly the two fields [filenames] and [embeddings]; the
    array has one row of [dim] entries per filename, and the row at a
    position is the embedding of the image file named at that position.
    The cell that loads the file then prints the first five filenames
    and the shape [(number of filenames, dim)]. *)
Theorem embeddings_match_filenames (s s' : state (world Image Tensor Scalar)) :
  quick_start.embed (python_ref sh_effect fmt) (lightly_spec p) s = (Returned tt, s') ->
  exists (d : gmap string (field Scalar)) (names : list string)
         (rs : list (vec Scalar (dim p))) (c : file Image Tensor Scalar),
    fs (Exec.world s') !! "my_embeddings.pth" = Some (Pickle (Dict d)) /\
    dom d = ({["filenames"; "embeddings"]} : gset string) /\
    d !! "filenames" = Some (Names names) /\
    d !! "embeddings" = Some (Array {| embedding_dim := dim p; rows := rs |}) /\
    shape {| embedding_dim := dim p; rows := rs |} = (length names, dim p) /\
    fs (Exec.world s) !! "out/my_experiment/checkpoints/last.ckpt" = Some c /\
    (forall i name, names !! i = Some name ->
       exists img, fs (Exec.world s) !! name = Some (ImageFile img) /\
                   under "my_data_dir" name = true /\
                   rs !! i = Some (encode p c img)) /\
    exists s'',
      quick_start.load_embeddings (python_ref sh_effect fmt) (torch_ref k) s'
        = (Returned tt, s'') /\
      stdout (Exec.world s'') = stdout (Exec.world s') ++
        [ [Text "First five filenames:"];
          [Value (Names (take 5 names))];
          [Text "
Embedding tensor shape:"];
          [Shape (length names, dim p)] ].
Proof.
  intros H. destruct (embed_returned s s' H) as (c & Hc & Hw).
  set (images := images_below (fs (Exec.world s)) "my_data_dir") in *.
  exists (embeddings_artifact p c images), images.*1, (map (encode p c) images.*2), c.
  assert (fs (Exec.world s') !! "my_embeddings.pth"
          = Some (Pickle (Dict (embeddings_artifact p c images)))) as Hfile.
  { rewrite Hw. cbn [fs with_fs]. apply lookup_insert_eq. }
  split; [exact Hfile|]. split; [apply embeddings_artifact_fields|].
  split; [reflexivity|]. split; [reflexivity|].
  split; [unfold shape; cbn [rows embedding_dim]; by rewrite length_map, !length_fmap|].
  split; [exact Hc|]. split.
  - intros i name Hi. rewrite list_lookup_fmap in Hi.
    destruct (images !! i) as [[n img]|] eqn:Himg; [|discriminate Hi].
    injection Hi as ->.
    destruct (images_below_spec _ _ _ _ (list_elem_of_lookup_2 _ _ _ Himg)) as [Hf Hu].
    exists img. split; [exact Hf|]. split; [exact Hu|].
    change (map (encode p c) images.*2) with (encode p c <$> images.*2).
    by rewrite !list_lookup_fmap, Himg.
  - unfold quick_start.load_embeddings, bind, call. cbn.
    unfold torch_load. rewrite Hfile. cbn.
    eexists. split; [reflexivity|]. cbn.
    unfold shape. cbn [rows embedding_dim].
    by rewrite length_map, !length_fmap, <- !app_assoc.
Qed.

End Embed.

Lemma embeddings_match_filenames_witness :
  let s := Examples.trained 3 in
  let s' := (quick_start.embed Examples.python0 (lightly_spec Examples.pretrain0) s).2 in
  quick_start.embed Examples.python0 (lightly_spec Examples.pretrain0) s = (Returned tt, s') /\
  exists d names,
    fs (Exec.world s') !! "my_embeddings.pth" = Some (Pickle (Dict d)) /\
    d !! "filenames" = Some (Names names) /\
    length names = 3.
Proof.
  cbv zeta. split; [reflexivity|].
  destruct (embeddings_match_filenames Examples.pretrain0 Examples.kernels0
              (fun _ f => f) (fun x => pretty x) (Examples.trained 3)
              (quick_start.embed Examples.python0 (lightly_spec Examples.pretrain0)
                 (Examples.trained 3)).2 eq_refl)
    as (d & names & rs & c & Hfile & _ & Hnames & _).
  exists d, names. split; [exact Hfile|]. split; [exact Hnames|].
  vm_compute in Hfile. injection Hfile as <-.
  vm_compute in Hnames. injection Hnames as <-. reflexivity.
Defined.

End EmbeddingFacts.

(** ** The dataset directory is only read *)

Module Frame.
Import Py Exec.

Section Laws.
Context {W : Type} (R : W -> W -> Prop) {HR : Reflexive R} {HT : Transitive R}.






End Laws.


End Frame.

Module DatasetFacts.
Import Py Exec Objects Reference Frame PathFacts.

Section Notebooks.
Context {Image Tensor Scalar Yolo Detr : Type}.
Context (p : pretraining Image Tensor Scalar) (k : kernels Image Tensor Scalar)
        (sh_effect : string -> gmap string (file Image Tensor Scalar)
                     -> gmap string (file Image Tensor Scalar))
        (fmt : Scalar -> string)
        (ul : ultralytics.api (world Image Tensor Scalar) Yolo)
        (rb : roboflow.api (world Image Tensor Scalar) Detr)
        (rd : rfdetr.api (world Image Tensor Scalar) Detr).

#[local] Instance unchanged_below_refl (d : string) :
  Reflexive (unchanged_below (Image:=Image) (Tensor:=Tensor) (Scalar:=Scalar) d).
Proof. intros w path _. reflexivity. Qed.

#[local] Instance unchanged_below_trans (d : string) :
  Transitive (unchanged_below (Image:=Image) (Tensor:=Tensor) (Scalar:=Scalar) d).
Proof. intros w1 w2 w3 H12 H23 path Hp. by rewrite H23, H12. Qed.

Lemma same_files (d : string) (w w' : world Image Tensor Scalar) :
  fs w' = fs w -> unchanged_below d w w'.
Proof. intros E path _. by rewrite E. Qed.

(** A training run changes files below its output directory only. *)
Lemma train_writes_below_out (kw : kwargs) (d : string) (w : world Image Tensor Scalar) :
  (forall o path, kwarg "out" kw = Some (VStr o) -> under d path = true ->
                    under o path = false) ->
  unchanged_below d w (train p kw w).2.
Proof.
  intros Hd. unfold train.
  destruct (kwarg "out" kw) as [[o| | |]|]; try by apply same_files.
  destruct (kwarg "data" kw) as [[data| | |]|]; try by apply same_files.
  destruct (kwarg "model" kw) as [[model| | |]|]; try by apply same_files.
  destruct (train_failure p kw (fs w)); [by apply same_files|].
  intros path Hp. cbn [snd fs with_fs].
  pose proof (Hd o path eq_refl Hp) as Ho.
  rewrite ArtifactFacts.write_files_other; [by apply outside_lookup_other|].
  intros n ->. by rewrite under_own_directory in Ho.
Qed.



(** A training run changes nothing in a directory that shares no file
    with its output directory. *)
Lemma training_keeps_other_directories (kw : kwargs) (o d : string)
    (w : world Image Tensor Scalar) :
  kwarg "out" kw = Some (VStr o) ->
  (forall path, under d path = true -> under o path = false) ->
  unchanged_below d w (train p kw w).2.
Proof.
  intros Ho Hd. apply train_writes_below_out.
  intros o' path Ho' Hp. rewrite Ho in Ho'. injection Ho' as <-. exact (Hd _ Hp).
Qed.











End Notebooks.




End DatasetFacts.

(** ** The fine-tuning cell *)

Module FineTuneFacts.
Import Py Exec Objects Reference.

Section Quick_start.
Context {Image Tensor Scalar : Type}.
Context (k : kernels Image Tensor Scalar)
        (sh_effect : string -> gmap string (file Image Tensor Scalar)
                     -> gmap string (file Image Tensor Scalar))
        (fmt : Scalar -> string).

(** The setup with the reference libraries: when it returns, the
    dataset was found, the exported file held a [state_dict] that fits a
    ResNet-18, and the globals are the following. *)
Lemma fine_tune_setup_returned (s s' : state (world Image Tensor Scalar))
    (g : quick_start.globals Tensor) :
  quick_start.fine_tune_setup (python_ref sh_effect fmt) (torch_ref k) s = (Returned g, s') ->
  exists cs ss sd,
    find_images k (fs (Exec.world s)) "my_data_dir" = Some (cs, ss) /\
    fs (Exec.world s) !! quick_start.exported_model = Some (Pickle (StateDict sd)) /\
    dom sd = dom (params (resnet18_init k (seed (Exec.world s)))) /\
    quick_start.dataset g
      = {| classes := cs; samples := ss; transforms := quick_start.transform |} /\
    quick_start.dataloader g
      = {| dataset := quick_start.dataset g; batch_size := 16; shuffle := true;
           drop_last := true |} /\
    quick_start.model g = fine_tuned_model k (Exec.world s) cs sd /\
    quick_start.device g = selected_device (Exec.world s) /\
    quick_start.optimizer g
      = {| param_names := elements (dom (params (quick_start.model g)));
           lr := VFloat 1 (-3); moments := (∅, ∅); steps := 0 |} /\
    trace s' = trace s ++ setup_calls (Exec.world s) /\
    fs (Exec.world s') = fs (Exec.world s) /\
    seed (Exec.world s') = S (S (seed (Exec.world s))) /\
    stdout (Exec.world s') = stdout (Exec.world s) ++ [[Text "Starting fine-tuning..."]].
Proof.
  destruct s as [w tr].
  unfold quick_start.fine_tune_setup, quick_start.select_device, bind, call. cbn.
  unfold image_folder. destruct (find_images k (fs w) "my_data_dir") as [[cs ss]|] eqn:Hfind;
    cbn; [|intros H; inversion H].
  unfold torch_load. cbn.
  destruct (fs w !! quick_start.exported_model) as [[img|obj|txt]|] eqn:Hfile;
    cbn; try (intros H; by inversion H).
  unfold load_state_dict.
  destruct obj as [sd|d]; cbn; [|intros H; inversion H].
  destruct (bool_decide_reflect (tshape k <$> sd
                                  = tshape k <$> params (resnet18_init k (seed w))))
    as [Hshape|_]; cbn; [|intros H; inversion H].
  apply (f_equal dom) in Hshape. rewrite !dom_fmap_L in Hshape.
  unfold setup_calls, fine_tuned_model, fresh_head, selected_device.
  destruct (cuda w) eqn:Hcuda; cbn; [|destruct (mps w) eqn:Hmps; cbn];
    intros H; inversion H; subst; cbn;
    exists cs, ss, sd; rewrite ?Hcuda, ?Hmps, <- ?app_assoc; cbn; repeat split;
    first [exact Hshape|reflexivity].
Qed.


(** C9. When the setup of the fine-tuning cell completes, every tensor
    of the model other than those of the head [fc] is the tensor of that
    name in the exported weights, and the model has no other tensors; the
    weight and the bias of the head are those of a fresh linear layer:
    they depend on its dimensions and on the random state, not on the
    exported weights. *)
Theorem backbone_is_exported_head_is_fresh (s s' : state (world Image Tensor Scalar))
    (g : quick_start.globals Tensor) :
  quick_start.fine_tune_setup (python_ref sh_effect fmt) (torch_ref k) s = (Returned g, s') ->
  exists sd : gmap string Tensor,
    fs (Exec.world s) !! quick_start.exported_model = Some (Pickle (StateDict sd)) /\
    (forall key, key <> "fc.weight" -> key <> "fc.bias" ->
                 params (quick_start.model g) !! key = sd !! key) /\
    dom (params (quick_start.model g)) = dom sd ∪ {["fc.weight"; "fc.bias"]} /\
    let i := fc_in_features (resnet18_init k (seed (Exec.world s))) in
    let n := length (classes (quick_start.dataset g)) in
    let fresh := linear_init k i n (S (seed (Exec.world s))) in
    params (quick_start.model g) !! "fc.weight" = Some fresh.1 /\
    params (quick_start.model g) !! "fc.bias" = Some fresh.2.
Proof.
  intros H.
  destruct (fine_tune_setup_returned s s' g H)
    as (cs & ss & sd & _ & Hfile & _ & Hd & _ & Hm & _).
  exists sd. split; [exact Hfile|]. rewrite Hm, Hd.
  unfold fine_tuned_model, fresh_head. cbn [params classes weight bias].
  split; [|split; [|split]].
  - intros key Hw Hb. by rewrite !lookup_insert_ne.
  - rewrite !dom_insert_L. apply set_eq. intros x.
    rewrite !elem_of_union, !elem_of_singleton. tauto.
  - rewrite lookup_insert_ne by discriminate. apply lookup_insert_eq.
  - apply lookup_insert_eq.
Qed.

(** One pass of the body of the inner loop with the reference libraries:
    it returns, and leaves the world as it is. *)
Lemma batch_body_ref (dev : string) (bar : tqdm) (b : batch Tensor)
    (v : quick_start.loop_vars Tensor Scalar) (s : state (world Image Tensor Scalar)) :
  quick_start.batch_body (python_ref sh_effect fmt) (torch_ref k) dev bar b v s
  = (Returned (step_vars k v b),
     {| Exec.world := Exec.world s; trace := trace s ++ batch_calls |}).
Proof.
  destruct s as [w tr]. unfold quick_start.batch_body, bind, call. cbn.
  rewrite <- !app_assoc. reflexivity.
Qed.

Lemma inner_loop_ref (dev : string) (bar : tqdm) (bs : list (batch Tensor))
    (v : quick_start.loop_vars Tensor Scalar) (s : state (world Image Tensor Scalar)) :
  for_fold bs (quick_start.batch_body (python_ref sh_effect fmt) (torch_ref k) dev bar) v s
  = (Returned (fold_left (step_vars k) bs v),
     {| Exec.world := Exec.world s;
        trace := trace s ++ concat (map (fun _ => batch_calls) bs) |}).
Proof.
  revert v s. induction bs as [|b bs IH]; intros v s.
  - destruct s. cbn. by rewrite app_nil_r.
  - cbn [for_fold]. unfold bind at 1. rewrite batch_body_ref, IH.
    cbn. by rewrite <- app_assoc.
Qed.

(** The inner loop never assigns [running_loss]. *)
Lemma running_loss_kept (bs : list (batch Tensor)) (v : quick_start.loop_vars Tensor Scalar) :
  quick_start.running_loss (fold_left (step_vars k) bs v) = quick_start.running_loss v.
Proof. revert v. induction bs as [|b bs IH]; intros v; [reflexivity|]. cbn. by rewrite IH. Qed.

(** After the inner loop, [loss] is the loss of its last pass. *)
Lemma loss_of_last_batch (bs : list (batch Tensor)) (b : batch Tensor)
    (v : quick_start.loop_vars Tensor Scalar) :
  quick_start.loss (fold_left (step_vars k) (bs ++ [b]) v)
  = Some (batch_loss k (quick_start.cur_model (fold_left (step_vars k) bs v)) b).
Proof. by rewrite fold_left_app. Qed.

(** C8. In an epoch with at least one batch, the line printed at the
    end is [Epoch [e/10], Loss: x], where [e] is the number of the epoch
    counted from one and [x] is the loss of the last batch alone, in the
    [.4f] format: the cross-entropy of that batch under the model as the
    earlier batches of the epoch left it. [running_loss] is [0.0] when
    the epoch ends: nothing adds to it, and it is not in the line. *)
Theorem epoch_prints_loss_of_last_batch
    (g : quick_start.globals Tensor) (epoch : nat) (v : quick_start.loop_vars Tensor Scalar)
    (s : state (world Image Tensor Scalar)) (bs : list (batch Tensor)) (b : batch Tensor) :
  epoch_batches k (fs (Exec.world s)) (seed (Exec.world s)) (quick_start.dataloader g)
    = bs ++ [b] ->
  exists (v' : quick_start.loop_vars Tensor Scalar) (s' : state (world Image Tensor Scalar)),
    quick_start.epoch_body (python_ref sh_effect fmt) (torch_ref k) g epoch v s
      = (Returned v', s') /\
    let m := quick_start.cur_model (fold_left (step_vars k) bs (reset_running_loss v)) in
    quick_start.loss v' = Some (batch_loss k m b) /\
    quick_start.running_loss v' = Some (VFloat 0 0) /\
    stdout (Exec.world s') = stdout (Exec.world s) ++
      [[Text ("Epoch [" +:+ pretty (epoch + 1) +:+ "/10], Loss: "
              +:+ fmt (nll k (net k (params m) (inputs b)) (labels b)))]].
Proof.
  intros Hb. destruct s as [w tr]. cbn [Exec.world] in Hb.
  unfold quick_start.epoch_body. unfold bind at 1, call at 1. cbn [torch.tqdm torch_ref].
  unfold bind at 1, call at 1.
  cbn [torch.iterate torch_ref Exec.world trace iterable fs seed with_seed]. rewrite Hb.
  unfold bind at 1. rewrite inner_loop_ref.
  fold (reset_running_loss v).
  set (v1 := fold_left (step_vars k) (bs ++ [b]) (reset_running_loss v)).
  assert (quick_start.loss v1
          = Some (batch_loss k (quick_start.cur_model
                    (fold_left (step_vars k) bs (reset_running_loss v))) b)) as Hl
    by apply loss_of_last_batch.
  unfold bind at 1. rewrite Hl. cbn [quick_start.name ret].
  unfold bind, call. cbn.
  eexists v1, _. split; [reflexivity|]. split; [exact Hl|].
  split; [unfold v1; by rewrite running_loss_kept|reflexivity].
Qed.

Lemma draw_length {X} (rnd : nat -> nat) (n sd : nat) (l : list X) :
  length (draw rnd n sd l) <= n.
Proof.
  revert sd l. induction n as [|n IH]; intros sd l; cbn; [lia|].
  destruct (l !! _); cbn; [|lia]. specialize (IH (S sd) (delete (rnd sd `mod` length l) l)).
  lia.
Qed.

(** Fewer items than the batch size, incomplete batches dropped: no
    batch. *)
Lemma chunks_short {X} (fuel bs : nat) (l : list X) :
  length l < bs -> chunks fuel bs true l = [].
Proof.
  intros Hl. destruct fuel; [reflexivity|]. cbn [chunks]. destruct l; [reflexivity|].
  apply Nat.ltb_lt in Hl. by rewrite Hl.
Qed.

Lemma epoch_batches_short (f : gmap string (file Image Tensor Scalar)) (n : nat)
    (d : ImageFolder) :
  length (samples d) < 16 ->
  epoch_batches k f n
    {| dataset := d; batch_size := 16; shuffle := true; drop_last := true |} = [].
Proof.
  intros Hl. unfold epoch_batches. cbn [dataset shuffle batch_size drop_last].
  rewrite chunks_short; [reflexivity|].
  unfold shuffled. pose proof (draw_length (rand k) (length (samples d)) n (samples d)). lia.
Qed.

(** C10. With fewer than 16 images in the dataset the loader yields no
    batch, the body of the inner loop runs zero times (after the setup
    the cell only creates the progress bar and iterates it), and the
    print at the end of the first epoch raises [NameError]: [loss] was
    never bound. *)
Theorem small_dataset_raises_NameError
    (s s1 : state (world Image Tensor Scalar)) (g : quick_start.globals Tensor) :
  quick_start.fine_tune_setup (python_ref sh_effect fmt) (torch_ref k) s = (Returned g, s1) ->
  length (samples (quick_start.dataset g)) < 16 ->
  (forall f n, epoch_batches k f n (quick_start.dataloader g) = []) /\
  exists s2 : state (world Image Tensor Scalar),
    quick_start.fine_tune (python_ref sh_effect fmt) (torch_ref k) s
      = (Raised (Exception "NameError" "name 'loss' is not defined"), s2) /\
    trace s2 = trace s1 ++ [Done "tqdm.tqdm"; Done "iter"] /\
    stdout (Exec.world s2) = stdout (Exec.world s1).
Proof.
  intros Hsetup Hlen.
  destruct (fine_tune_setup_returned s s1 g Hsetup)
    as (cs & ss & sd & _ & _ & _ & Hd & Hdl & _).
  assert (forall f n, epoch_batches k f n (quick_start.dataloader g) = []) as Hnone.
  { intros f n. rewrite Hdl. by apply epoch_batches_short. }
  split; [exact Hnone|].
  unfold quick_start.fine_tune. unfold bind at 1. rewrite Hsetup.
  unfold bind at 1. unfold quick_start.fine_tune_loop.
  change (seq 0 quick_start.num_epochs) with (0 :: seq 1 9). cbn [for_fold].
  unfold bind at 1. unfold quick_start.epoch_body.
  destruct s1 as [w1 tr1].
  unfold bind at 1, call at 1. cbn [torch.tqdm torch_ref].
  unfold bind at 1, call at 1.
  cbn [torch.iterate torch_ref Exec.world trace iterable fs seed with_seed].
  rewrite Hnone. cbn.
  eexists. split; [reflexivity|]. split; [by rewrite <- app_assoc|reflexivity].
Qed.

End Quick_start.

(** In a kernel with three images and an exported model, the setup of
    the fine-tuning cell completes. *)
Lemma setup_completes :
  exists g s',
    quick_start.fine_tune_setup (python_ref (fun _ f => f) (fun x => pretty x))
      (torch_ref Examples.kernels0) (Examples.start 3) = (Returned g, s') /\
    length (samples (quick_start.dataset g)) < 16.
Proof.
  vm_compute. eexists _, _. split; [reflexivity|]. vm_compute. lia.
Defined.


Lemma backbone_is_exported_head_is_fresh_witness :
  exists g s',
    quick_start.fine_tune_setup (python_ref (fun _ f => f) (fun x => pretty x))
      (torch_ref Examples.kernels0) (Examples.start 3) = (Returned g, s') /\
    params (quick_start.model g) !! "conv1.weight" = Some 7.
Proof.
  destruct setup_completes as (g & s' & E & _).
  destruct (backbone_is_exported_head_is_fresh Examples.kernels0 (fun _ f => f)
              (fun x => pretty x) (Examples.start 3) s' g E)
    as (sd & Hfile & Hsame & _).
  exists g, s'. split; [exact E|].
  rewrite Hsame by discriminate.
  vm_compute in Hfile. injection Hfile as <-. reflexivity.
Defined.

Lemma epoch_prints_loss_of_last_batch_witness :
  let first := {| inputs := 16; labels := 240 |} in
  let last := {| inputs := 16; labels := 271 |} in
  epoch_batches Examples.kernels0 (fs (Examples.world0 0)) 0
    (quick_start.dataloader Examples.globals33) = [first] ++ [last] /\
  exists v' s',
    quick_start.epoch_body Examples.python0 (torch_ref Examples.kernels0)
      Examples.globals33 0 Examples.vars0 (Examples.start 0) = (Returned v', s') /\
    stdout (Exec.world s') = [[Text "Epoch [1/10], Loss: 288"]].
Proof.
  cbv zeta. split; [reflexivity|].
  destruct (epoch_prints_loss_of_last_batch Examples.kernels0 (fun _ f => f)
              (fun x => pretty x) Examples.globals33 0 Examples.vars0 (Examples.start 0)
              [{| inputs := 16; labels := 240 |}] {| inputs := 16; labels := 271 |} eq_refl)
    as (v' & s' & Hrun & _ & _ & Hout).
  exists v', s'. split; [exact Hrun|]. rewrite Hout. reflexivity.
Defined.

Lemma small_dataset_raises_NameError_witness :
  exists g s1 s2,
    quick_start.fine_tune_setup (python_ref (fun _ f => f) (fun x => pretty x))
      (torch_ref Examples.kernels0) (Examples.start 3) = (Returned g, s1) /\
    length (samples (quick_start.dataset g)) < 16 /\
    quick_start.fine_tune (python_ref (fun _ f => f) (fun x => pretty x))
      (torch_ref Examples.kernels0) (Examples.start 3)
      = (Raised (Exception "NameError" "name 'loss' is not defined"), s2).
Proof.
  destruct setup_completes as (g & s1 & E & Hlen).
  destruct (small_dataset_raises_NameError Examples.kernels0 (fun _ f => f)
              (fun x => pretty x) (Examples.start 3) s1 g E Hlen)
    as (_ & s2 & Hrun & _).
  exists g, s1, s2. split; [exact E|]. split; [exact Hlen|exact Hrun].
Defined.

End FineTuneFacts.

(** ** The outcome of the documentation job *)

Module WorkflowOutcome.
Import Workflow.

Lemma run_steps_not_skipped (exit : step -> Z) (ss : list step) :
  run_steps exit ss <> Skipped.
Proof.
  induction ss as [|s ss IH]; simpl; [discriminate|].
  destruct (Z.eqb (exit s) 0); [exact IH|discriminate].
Qed.

(** X1. The documentation job is skipped exactly when a step of
    [detect-code-changes] fails or no file changed; otherwise it runs,
    and then it succeeds exactly when each of its five steps exits with
    status zero and fails if one does not. *)
Theorem documentation_job_outcome (exit : step -> Z) (changed : list string) :
  let detected := Forall (fun s => exit s = 0%Z) detect_code_changes_steps in
  let built := Forall (fun s => exit s = 0%Z) test_documentation_steps in
  (test_documentation exit changed = Skipped <-> ~ detected \/ changed = []) /\
  (test_documentation exit changed = Success <-> detected /\ changed <> [] /\ built) /\
  (test_documentation exit changed = Failure <-> detected /\ changed <> [] /\ ~ built).
Proof.
  cbv zeta. unfold test_documentation, test_documentation_executes, run_tests_output.
  pose proof (WorkflowFacts.run_steps_success exit detect_code_changes_steps) as Hd.
  pose proof (WorkflowFacts.run_steps_success exit test_documentation_steps) as Hb.
  pose proof (run_steps_not_skipped exit test_documentation_steps) as Hns.
  destruct (run_steps exit detect_code_changes_steps) eqn:Ed.
  - assert (Forall (fun s => exit s = 0%Z) detect_code_changes_steps) as Hok
      by (by apply Hd).
    unfold filter_output. rewrite WorkflowFacts.matching_files_all.
    destruct changed as [|f fs].
    + change (String.eqb "false" "true") with false. cbn iota.
      intuition (first [discriminate|congruence]).
    + change (String.eqb "true" "true") with true. cbn iota.
      destruct (run_steps exit test_documentation_steps) eqn:Eb.
      * assert (Forall (fun s => exit s = 0%Z) test_documentation_steps) as Hbuilt
          by (by apply Hb).
        intuition (first [discriminate|congruence]).
      * assert (~ Forall (fun s => exit s = 0%Z) test_documentation_steps) as Hbuilt.
        { intros H. apply Hb in H. discriminate. }
        intuition (first [discriminate|congruence]).
      * contradiction.
  - assert (~ Forall (fun s => exit s = 0%Z) detect_code_changes_steps) as Hno.
    { intros H. apply Hd in H. discriminate. }
    intuition (first [discriminate|congruence]).
  - assert (~ Forall (fun s => exit s = 0%Z) detect_code_changes_steps) as Hno.
    { intros H. apply Hd in H. discriminate. }
    intuition (first [discriminate|congruence]).
Qed.

End WorkflowOutcome.

(** ** The order of the calls *)

Module CallOrderFacts.
Import Py Exec CallOrder.

Section Laws.
Context {W : Type}.

Lemma follows_ret {A} (a : A) : follows (W:=W) [] (ret a).
Proof. intros s. exists []. cbn. split; [by rewrite app_nil_r|reflexivity]. Qed.

Lemma follows_call {A} (c : string) (f : Ext W A) : follows [c] (call c f).
Proof.
  intros s. unfold call. destruct (f (world s)) as [[a|e] w]; cbn.
  - exists [Done c]. split; reflexivity.
  - exists [Failed c e]. split; [reflexivity|]. exists [], c, []. split; reflexivity.
Qed.

Lemma follows_bind {A B} (n1 n2 : list string) (m : M W A) (k : A -> M W B) :
  follows n1 m -> (forall a, follows n2 (k a)) -> follows (n1 ++ n2) (bind m k).
Proof.
  intros Hm Hk s. destruct (Hm s) as (evs1 & Ht1 & H1).
  unfold bind. destruct (m s) as [[a|e] s1]; cbn in *.
  - destruct (Hk a s1) as (evs2 & Ht2 & H2). subst evs1.
    exists (map Done n1 ++ evs2). split; [by rewrite Ht2, Ht1, app_assoc|].
    destruct (k a s1).1 as [b|e].
    + subst evs2. by rewrite map_app.
    + destruct H2 as (done & c & rest & -> & ->).
      exists (n1 ++ done), c, rest. split; [by rewrite <- app_assoc|].
      by rewrite map_app, <- app_assoc.
  - exists evs1. split; [exact Ht1|].
    destruct H1 as (done & c & rest & -> & ->).
    exists done, c, (rest ++ n2). split; [by rewrite <- app_assoc|reflexivity].
Qed.

Lemma callee_done (names : list string) : map callee (map Done names) = names.
Proof. induction names as [|n names IH]; [reflexivity|]. cbn. by rewrite IH. Qed.

(** The callees of a run that follows [names] are a prefix of [names]. *)
Lemma follows_run {A} (names : list string) (m : M W A) (w : W) :
  follows names m ->
  map callee (trace (run m w).2) `prefix_of` names /\
  (forall a, (run m w).1 = Returned a -> trace (run m w).2 = map Done names) /\
  (forall e, (run m w).1 = Raised e ->
     exists c, last (trace (run m w).2) = Some (Failed c e)).
Proof.
  intros Hm. unfold run. destruct (Hm {| world := w; trace := [] |}) as (evs & Ht & H).
  cbn in Ht. destruct (m _).1 as [a|e].
  - rewrite Ht, H, callee_done.
    split; [reflexivity|]. split; [reflexivity|discriminate].
  - destruct H as (done & c & rest & -> & ->). rewrite Ht.
    rewrite map_app, callee_done. cbn.
    split; [|split; [discriminate|]].
    + exists rest. by rewrite <- app_assoc.
    + intros e' [= <-]. exists c. apply last_snoc.
Qed.

End Laws.

(** Splits a cell into its calls. *)
Ltac follow :=
  repeat first
    [ apply follows_call
    | apply (follows_bind [_] _); [apply follows_call|intros]
    | match goal with
      | |- follows _ (if ?b then _ else _) => progress cbn
      end ].

Section AnyLibrary.
Context {W Scalar Obj : Type}.
Context (py : python.api W Scalar) (lt : lightly_train.api W)
        (ul : ultralytics.api W Obj) (fa : flash_attn.api)
        (rb : roboflow.api W Obj) (rd : rfdetr.api W Obj).

Lemma yolov12_follows : follows yolov12_calls (yolov12.notebook py lt ul fa).
Proof.
  unfold yolov12.notebook.
  apply (follows_bind ["!pip"; "!pip"; "!pip"] _); [unfold yolov12.install; follow|intros _].
  apply (follows_bind ["import"; "print"] _);
    [unfold yolov12.verify_flash_attn; follow|intros _].
  apply (follows_bind ["import"; "check_det_dataset"; "import"; "settings.__getitem__"] _).
  { unfold yolov12.prepare_data.
    do 3 (apply (follows_bind [_] _); [apply follows_call|intros]).
    apply (follows_bind [_] [] ); [apply follows_call|intros; apply follows_ret]. }
  intros _.
  apply (follows_bind ["import"; "settings.__getitem__"; "lightly_train.train"] _).
  { unfold yolov12.train. apply (follows_bind [_] _); [apply follows_call|intros].
    cbn. follow. }
  intros _. unfold yolov12.fine_tune.
  apply (follows_bind [_] _); [apply follows_call|intros]. cbn. follow.
Qed.

Lemma rfdetr_follows : follows rfdetr_calls (rfdetr_nb.notebook py lt rb rd).
Proof.
  assert (forall rf ws pr v,
            follows ["rf.workspace"; "workspace.project"; "project.version";
                     "version.download"] (rfdetr_nb.download rb rf ws pr v)) as Hdl.
  { intros. unfold rfdetr_nb.download. follow. }
  unfold rfdetr_nb.notebook.
  apply (follows_bind ["!pip"] _); [unfold rfdetr_nb.install; follow|intros _].
  apply (follows_bind ["import"; "Roboflow"] _); [unfold rfdetr_nb.connect; follow|intros rf].
  apply (follows_bind [_; _; _; _] _); [apply Hdl|intros d1].
  apply (follows_bind [_; _; _; _] _); [apply Hdl|intros d2].
  apply (follows_bind ["import"; "lightly_train.train"] _).
  { unfold rfdetr_nb.train. apply (follows_bind [_] _); [apply follows_call|intros].
    cbn. follow. }
  intros _. unfold rfdetr_nb.fine_tune. follow.
Qed.

(** X2. Whatever the libraries do, the YOLOv12 notebook calls them in
    the order of its cells and stops at the first call that raises: the
    callees of a run are a prefix of the written order and all of it when
    the notebook completes, so the pretraining is called only after the
    dataset check and the settings lookup returned, and [YOLO] only
    after the pretraining returned. *)
Theorem yolov12_calls_in_order (w : W) :
  let r := run (yolov12.notebook py lt ul fa) w in
  map callee (trace r.2) `prefix_of` yolov12_calls /\
  (forall a, r.1 = Returned a -> trace r.2 = map Done yolov12_calls) /\
  (forall e, r.1 = Raised e -> exists c, last (trace r.2) = Some (Failed c e)).
Proof. apply follows_run, yolov12_follows. Qed.

(** X3. Whatever the libraries do, the RF-DETR notebook calls them in
    the order of its cells and stops at the first call that raises: both
    datasets are downloaded before the pretraining is called, and the
    RF-DETR model is built only after the pretraining returned. *)
Theorem rfdetr_calls_in_order (w : W) :
  let r := run (rfdetr_nb.notebook py lt rb rd) w in
  map callee (trace r.2) `prefix_of` rfdetr_calls /\
  (forall a, r.1 = Returned a -> trace r.2 = map Done rfdetr_calls) /\
  (forall e, r.1 = Raised e -> exists c, last (trace r.2) = Some (Failed c e)).
Proof. apply follows_run, rfdetr_follows. Qed.

End AnyLibrary.
End CallOrderFacts.

(** ** The shape of a fine-tuning run *)

Module LoopFacts.
Import Py Exec Objects CallOrder.

Section Laws.
Context {W : Type}.

Lemma emits_ret {A} (a : A) : emits (W:=W) [] (ret a).
Proof. intros s b s' [= _ <-]. by rewrite app_nil_r. Qed.

Lemma emits_call {A} (c : string) (f : Ext W A) : emits [Done c] (call c f).
Proof.
  intros s a s'. unfold call. destruct (f (world s)) as [[b|e] w]; [|discriminate].
  by intros [= _ <-].
Qed.

Lemma emits_bind {A B} (e1 e2 : list event) (m : M W A) (k : A -> M W B) :
  emits e1 m -> (forall a, emits e2 (k a)) -> emits (e1 ++ e2) (bind m k).
Proof.
  intros Hm Hk s b s'. unfold bind. destruct (m s) as [[a|e] s1] eqn:E; [|discriminate].
  intros H. rewrite (Hk a s1 b s' H), (Hm s a s1 E). by rewrite app_assoc.
Qed.

(** A loop whose passes each append some [F n]. *)
Lemma for_fold_emits {X S} (F : nat -> list event) (xs : list X)
    (body : X -> S -> M W S) (v : S) (s : state W) (v' : S) (s' : state W) :
  (forall x u t u' t', body x u t = (Returned u', t') ->
                       exists n, trace t' = trace t ++ F n) ->
  for_fold xs body v s = (Returned v', s') ->
  exists counts, length counts = length xs /\
                 trace s' = trace s ++ concat (map F counts).
Proof.
  intros Hb. revert v s. induction xs as [|x xs IH]; intros v s; cbn.
  - intros [= _ <-]. exists []. split; [reflexivity|]. by rewrite app_nil_r.
  - unfold bind. destruct (body x v s) as [[u|e] t] eqn:E; [|discriminate].
    intros H. destruct (Hb _ _ _ _ _ E) as (n & Hn).
    destruct (IH _ _ H) as (counts & Hlen & Ht).
    exists (n :: counts). split; [cbn; by rewrite Hlen|].
    cbn. by rewrite Ht, Hn, app_assoc.
Qed.

Lemma calls_to_app (c : string) (l1 l2 : list event) :
  calls_to c (l1 ++ l2) = calls_to c l1 + calls_to c l2.
Proof. unfold calls_to. by rewrite List.filter_app, length_app. Qed.

End Laws.

(** In the calls of the epochs, [c] returns [once] times per batch and
    [final] times at the end of each epoch. *)
Lemma calls_to_epochs (c : string) (once final : nat) (counts : list nat) :
  calls_to c Reference.batch_calls = once ->
  calls_to c [Done "tqdm.tqdm"; Done "iter"] = 0 ->
  calls_to c [Done "loss.item"; Done "print"] = final ->
  calls_to c (concat (map epoch_calls counts))
  = once * sum_list counts + final * length counts.
Proof.
  intros Hb Hh Hf. induction counts as [|n counts IH]; [cbn; lia|].
  cbn [map concat sum_list length]. rewrite calls_to_app, IH. unfold epoch_calls.
  rewrite !calls_to_app, Hh, Hf.
  assert (calls_to c (concat (replicate n Reference.batch_calls)) = once * n) as ->.
  { clear -Hb. induction n as [|n IHn]; [cbn; lia|].
    cbn [replicate concat]. rewrite calls_to_app, IHn, Hb. lia. }
  unfold id. lia.
Qed.

Section AnyLibrary.
Context {W Tensor Scalar : Type}.
Context (py : python.api W Scalar) (th : torch.api W Tensor Scalar).

Lemma batch_body_emits (dev : string) (bar : tqdm) (b : batch Tensor)
    (v : quick_start.loop_vars Tensor Scalar) :
  emits Reference.batch_calls (quick_start.batch_body py th dev bar b v).
Proof.
  unfold quick_start.batch_body, Reference.batch_calls.
  repeat (apply (emits_bind [_] _); [apply emits_call|intros]).
  apply emits_ret.
Qed.

Lemma inner_loop_emits (dev : string) (bar : tqdm) (bs : list (batch Tensor))
    (v : quick_start.loop_vars Tensor Scalar) :
  emits (concat (replicate (length bs) Reference.batch_calls))
        (for_fold bs (quick_start.batch_body py th dev bar) v).
Proof.
  revert v. induction bs as [|b bs IH]; intros v; cbn [for_fold length replicate concat].
  - apply emits_ret.
  - apply emits_bind; [apply batch_body_emits|exact IH].
Qed.

Lemma epoch_body_emits (g : quick_start.globals Tensor) (epoch : nat)
    (v v' : quick_start.loop_vars Tensor Scalar) (s s' : state W) :
  quick_start.epoch_body py th g epoch v s = (Returned v', s') ->
  exists n, trace s' = trace s ++ epoch_calls n.
Proof.
  unfold quick_start.epoch_body, bind.
  destruct (call "tqdm.tqdm" _ s) as [[bar|e] s1] eqn:E1; [|discriminate].
  destruct (call "iter" _ s1) as [[bs|e] s2] eqn:E2; [|discriminate].
  destruct (for_fold bs _ _ s2) as [[v1|e] s3] eqn:E3; [|discriminate].
  destruct (quick_start.loss v1) as [l|]; cbn [quick_start.name ret raise]; [|discriminate].
  destruct (call "loss.item" _ s3) as [[x|e] s4] eqn:E4; [|discriminate].
  destruct (call "print" _ s4) as [[u|e] s5] eqn:E5; [|discriminate].
  intros [= _ <-]. exists (length bs). unfold epoch_calls.
  rewrite (emits_call _ _ _ _ _ E5), (emits_call _ _ _ _ _ E4),
    (inner_loop_emits _ _ _ _ _ _ _ E3), (emits_call _ _ _ _ _ E2),
    (emits_call _ _ _ _ _ E1).
  by rewrite <- !app_assoc.
Qed.

(** X4. Whatever the libraries do, a fine-tuning loop that completes
    ran ten epochs, and in each epoch it created the progress bar,
    iterated it, ran the nine calls of the loop body once per batch in
    their order, and read and printed the loss once. So each batch had
    exactly one [zero_grad], one [backward] and one [step], and ten lines
    were printed. *)
Theorem completed_loop_structure (g : quick_start.globals Tensor)
    (s s' : state W) (v' : quick_start.loop_vars Tensor Scalar) :
  quick_start.fine_tune_loop py th g s = (Returned v', s') ->
  exists (counts : list nat) (evs : list event),
    length counts = 10 /\
    evs = concat (map epoch_calls counts) /\
    trace s' = trace s ++ evs /\
    calls_to "optimizer.zero_grad" evs = sum_list counts /\
    calls_to "loss.backward" evs = sum_list counts /\
    calls_to "optimizer.step" evs = sum_list counts /\
    calls_to "print" evs = 10.
Proof.
  unfold quick_start.fine_tune_loop. intros H.
  destruct (for_fold_emits epoch_calls _ _ _ _ _ _
              (fun x u t u' t' E => epoch_body_emits g x u u' t t' E) H)
    as (counts & Hlen & Ht).
  rewrite length_seq in Hlen. change quick_start.num_epochs with 10 in Hlen.
  exists counts, (concat (map epoch_calls counts)).
  split; [exact Hlen|]. split; [reflexivity|]. split; [exact Ht|].
  rewrite (calls_to_epochs "optimizer.zero_grad" 1 0), (calls_to_epochs "loss.backward" 1 0),
    (calls_to_epochs "optimizer.step" 1 0), (calls_to_epochs "print" 0 1) by reflexivity.
  rewrite Hlen. repeat split; lia.
Qed.

End AnyLibrary.

Lemma loop_completes33 :
  exists v' s',
    quick_start.fine_tune_loop Examples.python0 (Reference.torch_ref Examples.kernels0)
      Examples.globals33 (Examples.start 0) = (Returned v', s').
Proof. vm_compute. eexists _, _. reflexivity. Defined.

Lemma completed_loop_structure_witness :
  exists v' s',
    quick_start.fine_tune_loop Examples.python0 (Reference.torch_ref Examples.kernels0)
      Examples.globals33 (Examples.start 0) = (Returned v', s') /\
    calls_to "print" (trace s') = 10.
Proof.
  destruct loop_completes33 as (v' & s' & E).
  destruct (completed_loop_structure _ _ _ _ _ _ E)
    as (counts & evs & _ & _ & Ht & _ & _ & _ & Hp).
  exists v', s'. split; [exact E|]. rewrite Ht. exact Hp.
Defined.

(** *** With the reference libraries *)

Section ReferenceLoop.
Import Reference.
Context {Image Tensor Scalar : Type}.
Context (k : kernels Image Tensor Scalar)
        (sh_effect : string -> gmap string (file Image Tensor Scalar)
                     -> gmap string (file Image Tensor Scalar))
        (fmt : Scalar -> string).

(** Drawing as many items as there are, or fewer, never runs short. *)
Lemma draw_all {X} (rnd : nat -> nat) (n sd : nat) (l : list X) :
  n <= length l -> length (draw rnd n sd l) = n.
Proof.
  revert sd l. induction n as [|n IH]; intros sd l Hn; [reflexivity|].
  cbn [draw].
  assert (Nat.modulo (rnd sd) (length l) < length l) as Hi
    by (apply Nat.mod_upper_bound; lia).
  destruct (lookup_lt_is_Some_2 l _ Hi) as [x Hx]. rewrite Hx. cbn [length]. f_equal.
  apply IH. rewrite length_delete by eauto. lia.
Qed.

(** With incomplete groups dropped, [bs] items make one group. *)
Lemma chunks_count {X} (fuel bs : nat) (l : list X) :
  0 < bs -> length l <= fuel -> length (chunks fuel bs true l) = length l / bs.
Proof.
  intros Hbs. revert l. induction fuel as [|fuel IH]; intros l Hl.
  - destruct l; [|cbn in Hl; lia]. cbn. by rewrite Nat.Div0.div_0_l.
  - cbn [chunks]. destruct l as [|x l']; [cbn; by rewrite Nat.Div0.div_0_l|].
    remember (x :: l') as l eqn:El. clear El x l'.
    destruct (Nat.ltb_spec (length l) bs) as [Hlt|Hge].
    + cbn. symmetry. by apply Nat.div_small.
    + cbn [length]. rewrite IH by (rewrite length_drop; lia).
      rewrite length_drop.
      replace (length l) with ((length l - bs) + 1 * bs) at 2 by lia.
      rewrite Nat.div_add by lia. lia.
Qed.

(** The loader of the cell yields one batch per sixteen samples. *)
Lemma epoch_batches_count (f : gmap string (file Image Tensor Scalar)) (n : nat)
    (d : ImageFolder) :
  length (epoch_batches k f n
            {| dataset := d; batch_size := 16; shuffle := true; drop_last := true |})
  = length (samples d) / 16.
Proof.
  unfold epoch_batches. cbn [dataset shuffle batch_size drop_last].
  rewrite length_map, chunks_count by lia.
  unfold shuffled. by rewrite draw_all.
Qed.

Lemma replicate_calls {X} (bs : list X) :
  map (fun _ => batch_calls) bs = replicate (length bs) batch_calls.
Proof. induction bs as [|b bs IH]; [reflexivity|]. cbn. by rewrite IH. Qed.

(** An epoch with at least one batch completes: it makes the calls of
    an epoch, prints one line and writes no file. *)
Lemma epoch_body_ref (g : quick_start.globals Tensor) (epoch : nat)
    (v : quick_start.loop_vars Tensor Scalar) (s : state (world Image Tensor Scalar)) :
  epoch_batches k (fs (Exec.world s)) (seed (Exec.world s)) (quick_start.dataloader g) <> [] ->
  exists v' s',
    quick_start.epoch_body (python_ref sh_effect fmt) (torch_ref k) g epoch v s
      = (Returned v', s') /\
    trace s' = trace s ++
      epoch_calls (length (epoch_batches k (fs (Exec.world s)) (seed (Exec.world s))
                             (quick_start.dataloader g))) /\
    fs (Exec.world s') = fs (Exec.world s) /\
    length (stdout (Exec.world s')) = S (length (stdout (Exec.world s))).
Proof.
  intros Hne. destruct (exists_last Hne) as (bs & b & Hb). rewrite Hb.
  destruct s as [w tr]. cbn [Exec.world] in Hb.
  unfold quick_start.epoch_body. unfold bind at 1, call at 1. cbn [torch.tqdm torch_ref].
  unfold bind at 1, call at 1.
  cbn [torch.iterate torch_ref Exec.world trace iterable fs seed with_seed]. rewrite Hb.
  unfold bind at 1. rewrite FineTuneFacts.inner_loop_ref.
  fold (reset_running_loss v).
  unfold bind at 1. rewrite FineTuneFacts.loss_of_last_batch. cbn [quick_start.name ret].
  unfold bind, call. cbn.
  eexists _, _. split; [reflexivity|]. cbn.
  split; [|split; [reflexivity|by rewrite length_app, Nat.add_comm]].
  unfold epoch_calls. rewrite replicate_calls, <- !app_assoc. reflexivity.
Qed.

(** With at least sixteen samples every epoch completes. *)
Lemma loop_ref (g : quick_start.globals Tensor) (d : ImageFolder) (epochs : list nat)
    (v : quick_start.loop_vars Tensor Scalar) (s : state (world Image Tensor Scalar)) :
  quick_start.dataloader g
    = {| dataset := d; batch_size := 16; shuffle := true; drop_last := true |} ->
  16 <= length (samples d) ->
  exists v' s',
    for_fold epochs (quick_start.epoch_body (python_ref sh_effect fmt) (torch_ref k) g) v s
      = (Returned v', s') /\
    trace s' = trace s ++
      concat (map epoch_calls (replicate (length epochs) (length (samples d) / 16))) /\
    fs (Exec.world s') = fs (Exec.world s) /\
    length (stdout (Exec.world s')) = length (stdout (Exec.world s)) + length epochs.
Proof.
  intros Hdl Hn. revert v s. induction epochs as [|e epochs IH]; intros v s.
  - exists v, s. cbn. rewrite app_nil_r. repeat split; lia.
  - assert (epoch_batches k (fs (Exec.world s)) (seed (Exec.world s))
              (quick_start.dataloader g) <> []) as Hne.
    { intros E. apply (f_equal length) in E.
      rewrite Hdl, epoch_batches_count in E. cbn [length] in E.
      pose proof (Nat.div_str_pos (length (samples d)) 16 ltac:(lia)). lia. }
    destruct (epoch_body_ref g e v s Hne) as (v1 & s1 & E1 & Ht1 & Hf1 & Ho1).
    rewrite Hdl, epoch_batches_count in Ht1.
    destruct (IH v1 s1) as (v' & s' & E & Ht & Hf & Ho).
    exists v', s'. cbn [for_fold]. unfold bind at 1. rewrite E1.
    split; [exact E|]. cbn [length replicate map concat].
    rewrite Ht, Ht1, Hf, Hf1, Ho, Ho1, <- app_assoc. repeat split; lia.
Qed.

(** X5. With the reference libraries and at least sixteen images, the
    fine-tuning cell completes once its setup has: every epoch handles
    one batch per sixteen samples (the samples left over are dropped),
    the optimizer steps that many times in each of the ten epochs, ten
    lines are printed, and the cell writes no file: the fine-tuned
    weights are not saved. *)
Theorem large_dataset_completes
    (s s1 : state (world Image Tensor Scalar)) (g : quick_start.globals Tensor) :
  quick_start.fine_tune_setup (python_ref sh_effect fmt) (torch_ref k) s = (Returned g, s1) ->
  16 <= length (samples (quick_start.dataset g)) ->
  exists (s2 : state (world Image Tensor Scalar)) (evs : list event),
    quick_start.fine_tune (python_ref sh_effect fmt) (torch_ref k) s = (Returned tt, s2) /\
    trace s2 = trace s1 ++ evs /\
    evs = concat (map epoch_calls
                    (replicate 10 (length (samples (quick_start.dataset g)) / 16))) /\
    calls_to "optimizer.step" evs = 10 * (length (samples (quick_start.dataset g)) / 16) /\
    length (stdout (Exec.world s2)) = length (stdout (Exec.world s1)) + 10 /\
    fs (Exec.world s2) = fs (Exec.world s).
Proof.
  intros Hsetup Hn.
  destruct (FineTuneFacts.fine_tune_setup_returned k sh_effect fmt s s1 g Hsetup)
    as (cs & ss & sd & _ & _ & _ & _ & Hdl & _ & _ & _ & _ & Hfs & _).
  destruct (loop_ref g (quick_start.dataset g) (seq 0 quick_start.num_epochs)
              {| quick_start.cur_model := quick_start.model g;
                 quick_start.cur_optimizer := quick_start.optimizer g;
                 quick_start.running_loss := None; quick_start.loss := None |}
              s1 Hdl Hn) as (v' & s2 & E & Ht & Hf & Ho).
  rewrite length_seq in Ht, Ho. change quick_start.num_epochs with 10 in Ht, Ho.
  exists s2, (concat (map epoch_calls
                        (replicate 10 (length (samples (quick_start.dataset g)) / 16)))).
  split.
  { unfold quick_start.fine_tune. unfold bind at 1. rewrite Hsetup.
    unfold bind at 1. unfold quick_start.fine_tune_loop. by rewrite E. }
  split; [exact Ht|]. split; [reflexivity|].
  split; [|split; [exact Ho|by rewrite Hf, Hfs]].
  rewrite (calls_to_epochs "optimizer.step" 1 0) by reflexivity.
  rewrite sum_list_replicate. lia.
Qed.

End ReferenceLoop.

(** In a kernel with sixteen images and an exported model, the setup of
    the fine-tuning cell completes. *)
Lemma setup_completes16 :
  exists g s',
    quick_start.fine_tune_setup Examples.python0 (Reference.torch_ref Examples.kernels0)
      (Examples.start 16) = (Returned g, s') /\
    16 <= length (samples (quick_start.dataset g)).
Proof.
  vm_compute. eexists _, _. split; [reflexivity|]. vm_compute. lia.
Defined.

Lemma large_dataset_completes_witness :
  exists g s1 s2,
    quick_start.fine_tune_setup Examples.python0 (Reference.torch_ref Examples.kernels0)
      (Examples.start 16) = (Returned g, s1) /\
    quick_start.fine_tune Examples.python0 (Reference.torch_ref Examples.kernels0)
      (Examples.start 16) = (Returned tt, s2) /\
    length (Reference.stdout (Exec.world s2)) = length (Reference.stdout (Exec.world s1)) + 10.
Proof.
  destruct setup_completes16 as (g & s1 & E & Hn).
  destruct (large_dataset_completes Examples.kernels0 (fun _ f => f) (fun x => pretty x)
              (Examples.start 16) s1 g E Hn)
    as (s2 & evs & Hrun & _ & _ & _ & Ho & _).
  exists g, s1, s2. split; [exact E|]. split; [exact Hrun|exact Ho].
Defined.

End LoopFacts.
